(** * Ainthinai classifier: the terrain decision procedure and the
      coast-distance estimator

    A shallow embedding of [js/terrain-analyzer.js] (the classifier, in its
    instrumented and its plain copy) and of the coast-distance part of
    [js/api-client.js], followed by the properties the specification states
    about them; then of what surrounds them in the program: the
    instrumented copy of the estimator, its list of reference points, the
    cache, the requests with retries and the precipitation getter, the rate
    limiter of the geocoder and the history of results, with properties
    read off the source.

    Numbers are IEEE 754 binary64 values, which is what a JavaScript
    number is, modelled by Rocq's primitive [float]: NaN, the infinities
    and both zeros are there, the arithmetic rounds and the comparisons
    are the IEEE ones.  The haversine formula calls [Math.sin], [Math.cos],
    [Math.sqrt] and [Math.atan2], which belong to the platform: the
    estimator takes the [Math] object as a parameter, and what a property
    needs of it is a hypothesis of that property.

    Exact real arithmetic appears in two places only: the haversine
    formula with nothing rounded, on which the distance from a point to
    itself is stated before it is stated on binary64 numbers, and the
    cache of [getFromCache] and [saveToCache], whose keys and values are
    then real numbers.

    Contents: the embedding of the source; the specification's tables;
    then the properties C1 to C10 and further properties, numbered from X1. *)

From Stdlib Require Import Floats ZArith Bool List String Reals Lra Lia.
Import ListNotations.

Set Warnings "-inexact-float,-register-all".

(* ================================================================== *)
(** * JavaScript numbers as binary64 floats *)

Module JsNum.

(** The four relational operators of JavaScript on numbers.  [a > b] and
    [a >= b] are the mirrored IEEE comparisons: every one of them is
    [false] as soon as an operand is NaN. *)
Definition le (a b : float) : bool := PrimFloat.leb a b.
Definition lt (a b : float) : bool := PrimFloat.ltb a b.
Definition ge (a b : float) : bool := PrimFloat.leb b a.
Definition gt (a b : float) : bool := PrimFloat.ltb b a.

(** [Number.isNaN] and [Number.isFinite]. *)
Definition isNaN (a : float) : bool := PrimFloat.is_nan a.
Definition isFinite (a : float) : bool := PrimFloat.is_finite a.

(** NaN, on the decoded value. *)
Definition sf_is_nan (x : spec_float) : bool :=
  match x with
  | S754_nan => true
  | _ => false
  end.

(** The position of [x] relative to [y], with the outcome of the four
    comparisons in each case. *)
Inductive position (x y : float) : Prop :=
| Unordered :
    PrimFloat.is_nan x || PrimFloat.is_nan y = true ->
    (x <? y)%float = false -> (x <=? y)%float = false ->
    (y <? x)%float = false -> (y <=? x)%float = false -> position x y
| Below :
    PrimFloat.is_nan x = false -> PrimFloat.is_nan y = false ->
    (x <? y)%float = true -> (x <=? y)%float = true ->
    (y <? x)%float = false -> (y <=? x)%float = false -> position x y
| Level :
    PrimFloat.is_nan x = false -> PrimFloat.is_nan y = false ->
    (x <? y)%float = false -> (x <=? y)%float = true ->
    (y <? x)%float = false -> (y <=? x)%float = true -> position x y
| Above :
    PrimFloat.is_nan x = false -> PrimFloat.is_nan y = false ->
    (x <? y)%float = false -> (x <=? y)%float = false ->
    (y <? x)%float = true -> (y <=? x)%float = true -> position x y.

End JsNum.

Declare Scope js_scope.
Delimit Scope js_scope with js.
Notation "a <= b" := (JsNum.le a b) : js_scope.
Notation "a < b" := (JsNum.lt a b) : js_scope.
Notation "a >= b" := (JsNum.ge a b) : js_scope.
Notation "a > b" := (JsNum.gt a b) : js_scope.
Notation "a * b" := (PrimFloat.mul a b) : js_scope.
Notation "a / b" := (PrimFloat.div a b) : js_scope.
Notation "a && b" := (andb a b) : js_scope.
Notation "! a" := (negb a) (at level 35, right associativity) : js_scope.

(* ================================================================== *)
(** * The five categories *)

(** The specification's closed enumeration.  The source has no such type:
    it returns the labels as string literals, and so does the embedding. *)
Inductive Category : Set := Neithal | Kurinji | Paalai | Mullai | Marudham.

Definition label (c : Category) : string :=
  match c with
  | Neithal => "Neithal"
  | Kurinji => "Kurinji"
  | Paalai => "Paalai"
  | Mullai => "Mullai"
  | Marudham => "Marudham"
  end.

Definition categories : list Category :=
  [Neithal; Kurinji; Paalai; Mullai; Marudham].

(** [THRESHOLDS], the same object literal in both copies of the analyzer. *)
Record Thresholds : Set := {
  COASTAL_DISTANCE : float;   (* km *)
  HIGH_ELEVATION : float;     (* meters *)
  MID_ELEVATION_MIN : float;  (* meters *)
  LOW_ELEVATION : float;      (* meters *)
  LOW_PRECIPITATION : float   (* mm/year *)
}.

(** The object destructured by [getClassificationExplanation]. *)
Record TerrainData : Set := {
  elevation : float;
  coastDistance : float;
  precipitation : float
}.

(* ================================================================== *)
(** * The console *)

(** What [console.log] receives: a message and the further arguments.
    Values are the fragment of JavaScript values the analyzer logs. *)
Inductive value : Set :=
| Num (x : float)
| Bool (b : bool)
| Str (s : string)
| Obj (fields : list (string * value)).

Record log_entry : Set := Log { log_message : string; log_args : list value }.

(** A computation that writes to the console: its result and the lines it
    logged, oldest first. *)
Module Console.

Definition M (A : Type) : Type := (A * list log_entry)%type.

Definition ret {A} (a : A) : M A := (a, []).

Definition bind {A B} (m : M A) (k : A -> M B) : M B :=
  let '(a, l1) := m in
  let '(b, l2) := k a in
  (b, l1 ++ l2).

Definition log (message : string) (args : list value) : M unit :=
  (tt, [Log message args]).

Definition result {A} (m : M A) : A := fst m.
Definition output {A} (m : M A) : list log_entry := snd m.

End Console.

Notation "c ;; k" := (Console.bind c (fun _ => k))
  (at level 61, right associativity).

(** The built-in number formatting the analyzer calls.  It belongs to the
    JavaScript runtime, not to this program, and no property below depends
    on what it prints, so it is taken as given. *)
Record Builtins : Type := {
  Number_toString : float -> string;       (* `${x}` *)
  Number_toFixed : float -> Z -> string;   (* x.toFixed(digits) *)
  Math_round : float -> float              (* Math.round(x) *)
}.

Local Open Scope string_scope.
Local Open Scope float_scope.
Local Open Scope js_scope.

(** A runtime to run the examples with: it rounds nothing and prints every
    number as [#].  The properties below hold for every runtime. *)
Definition example_runtime : Builtins := {|
  Number_toString := fun _ => "#";
  Number_toFixed := fun _ _ => "#";
  Math_round := fun x => x
|}.

(* ================================================================== *)
(** * The plain copy of the analyzer (second [TerrainAnalyzer] object,
      shipped inside [js/api-client.js]) *)

Module TerrainAnalyzerPlain.

Definition THRESHOLDS : Thresholds := {|
  COASTAL_DISTANCE := 50;
  HIGH_ELEVATION := 1000;
  MID_ELEVATION_MIN := 200;
  LOW_ELEVATION := 200;
  LOW_PRECIPITATION := 250
|}.

(** Get best fit region when no perfect match exists. *)
Definition getBestFitRegion (elevation coastDistance precipitation : float)
  : string :=
  let T := THRESHOLDS in
  (* If very close to coast (even if slightly higher elevation) *)
  if (coastDistance <= T.(COASTAL_DISTANCE) * 1.5) then "Neithal"
  (* If very high elevation *)
  else if (elevation >= T.(HIGH_ELEVATION) * 0.8) then "Kurinji"
  (* If very dry *)
  else if (precipitation < T.(LOW_PRECIPITATION) * 1.2) then "Paalai"
  (* If mid-altitude *)
  else if (elevation >= T.(MID_ELEVATION_MIN) * 0.8)
          && (elevation < T.(HIGH_ELEVATION)) then "Mullai"
  (* Default *)
  else "Marudham".

(** Apply classification rules based on terrain parameters. *)
Definition applyClassificationRules
           (elevation coastDistance precipitation : float) : string :=
  let T := THRESHOLDS in
  (* 1. NEITHAL *)
  if (coastDistance <= T.(COASTAL_DISTANCE))
     && (elevation < T.(LOW_ELEVATION)) then "Neithal"
  (* 2. KURINJI *)
  else if (elevation >= T.(HIGH_ELEVATION))
          && (coastDistance > T.(COASTAL_DISTANCE)) then "Kurinji"
  (* 3. PAALAI *)
  else if (precipitation < T.(LOW_PRECIPITATION))
          && (elevation < T.(HIGH_ELEVATION))
          && (coastDistance > T.(COASTAL_DISTANCE)) then "Paalai"
  (* 4. MULLAI *)
  else if (elevation >= T.(MID_ELEVATION_MIN))
          && (elevation < T.(HIGH_ELEVATION))
          && (precipitation >= T.(LOW_PRECIPITATION))
          && (coastDistance > T.(COASTAL_DISTANCE)) then "Mullai"
  (* 5. MARUDHAM *)
  else if (elevation < T.(LOW_ELEVATION))
          && (precipitation >= T.(LOW_PRECIPITATION))
          && (coastDistance > T.(COASTAL_DISTANCE)) then "Marudham"
  (* Fallback *)
  else getBestFitRegion elevation coastDistance precipitation.

End TerrainAnalyzerPlain.

(* ================================================================== *)
(** * The instrumented copy ([js/terrain-analyzer.js]) *)

Module TerrainAnalyzer.

Definition THRESHOLDS : Thresholds := {|
  COASTAL_DISTANCE := 50;
  HIGH_ELEVATION := 1000;
  MID_ELEVATION_MIN := 200;
  LOW_ELEVATION := 200;
  LOW_PRECIPITATION := 250
|}.

(** [console.log] of the thresholds object. *)
Definition thresholds_value (T : Thresholds) : value :=
  Obj [ ("COASTAL_DISTANCE", Num T.(COASTAL_DISTANCE));
        ("HIGH_ELEVATION", Num T.(HIGH_ELEVATION));
        ("MID_ELEVATION_MIN", Num T.(MID_ELEVATION_MIN));
        ("LOW_ELEVATION", Num T.(LOW_ELEVATION));
        ("LOW_PRECIPITATION", Num T.(LOW_PRECIPITATION)) ].

(** Get best fit region when no perfect match exists.  This copy logs
    nothing. *)
Definition getBestFitRegion (elevation coastDistance precipitation : float)
  : string :=
  let T := THRESHOLDS in
  if (coastDistance <= T.(COASTAL_DISTANCE) * 1.5) then "Neithal"
  else if (elevation >= T.(HIGH_ELEVATION) * 0.8) then "Kurinji"
  else if (precipitation < T.(LOW_PRECIPITATION) * 1.2) then "Paalai"
  else if (elevation >= T.(MID_ELEVATION_MIN) * 0.8)
          && (elevation < T.(HIGH_ELEVATION)) then "Mullai"
  else "Marudham".

(** The five local constants [neithalCheck] ... [marudhamCheck] of
    [applyClassificationRules], as functions of its parameters. *)
Definition neithalCheck (elevation coastDistance precipitation : float)
  : bool :=
  let T := THRESHOLDS in
  (coastDistance <= T.(COASTAL_DISTANCE))
  && (elevation < T.(LOW_ELEVATION)).

Definition kurinjiCheck (elevation coastDistance precipitation : float)
  : bool :=
  let T := THRESHOLDS in
  (elevation >= T.(HIGH_ELEVATION))
  && (coastDistance > T.(COASTAL_DISTANCE)).

Definition paalaiCheck (elevation coastDistance precipitation : float)
  : bool :=
  let T := THRESHOLDS in
  (precipitation < T.(LOW_PRECIPITATION))
  && (elevation < T.(HIGH_ELEVATION))
  && (coastDistance > T.(COASTAL_DISTANCE)).

Definition mullaiCheck (elevation coastDistance precipitation : float)
  : bool :=
  let T := THRESHOLDS in
  (elevation >= T.(MID_ELEVATION_MIN))
  && (elevation < T.(HIGH_ELEVATION))
  && (precipitation >= T.(LOW_PRECIPITATION))
  && (coastDistance > T.(COASTAL_DISTANCE)).

Definition marudhamCheck (elevation coastDistance precipitation : float)
  : bool :=
  let T := THRESHOLDS in
  (elevation < T.(LOW_ELEVATION))
  && (precipitation >= T.(LOW_PRECIPITATION))
  && (coastDistance > T.(COASTAL_DISTANCE)).

Section WithBuiltins.

Variable js : Builtins.

Let str (x : float) : string := js.(Number_toString) x.

(** Apply classification rules based on terrain parameters.  Every
    check is computed, logged with its outcome, and only then tested. *)
Definition applyClassificationRules
           (elevation coastDistance precipitation : float)
  : Console.M string :=
  let T := THRESHOLDS in
  Console.log "Applying rules with thresholds:" [thresholds_value T] ;;
  Console.log "Input values:"
    [Obj [ ("elevation", Num elevation);
           ("coastDistance", Num coastDistance);
           ("precipitation", Num precipitation) ]] ;;

  (* 1. NEITHAL (Coastal) - Highest Priority *)
  let neithalCheck :=
    neithalCheck elevation coastDistance precipitation in
  Console.log "Neithal check:"
    [Obj [ ("coastDistance", Num coastDistance);
           ("threshold", Num T.(COASTAL_DISTANCE));
           ("elevation", Num elevation);
           ("elevationThreshold", Num T.(LOW_ELEVATION));
           ("passes", Bool neithalCheck);
           ("reason", Str
              (if ! neithalCheck then
                 if (coastDistance > T.(COASTAL_DISTANCE))
                 then "coast distance "
                      ++ js.(Number_toFixed) coastDistance 1%Z
                      ++ "km > " ++ str T.(COASTAL_DISTANCE)
                      ++ "km threshold"
                 else "elevation " ++ str elevation ++ "m >= "
                      ++ str T.(LOW_ELEVATION) ++ "m threshold"
               else "PASSES - NEITHAL")) ]] ;;
  if neithalCheck then Console.ret "Neithal" else

  (* 2. KURINJI (Mountains) - Second Priority *)
  let kurinjiCheck :=
    kurinjiCheck elevation coastDistance precipitation in
  Console.log "Kurinji check:"
    [Obj [ ("passes", Bool kurinjiCheck);
           ("reason", Str
              (if ! kurinjiCheck then
                 if (elevation < T.(HIGH_ELEVATION))
                 then "elevation " ++ str elevation ++ "m < "
                      ++ str T.(HIGH_ELEVATION) ++ "m"
                 else "too coastal"
               else "PASSES - KURINJI")) ]] ;;
  if kurinjiCheck then Console.ret "Kurinji" else

  (* 3. PAALAI (Arid/Desert) - Third Priority *)
  let paalaiCheck :=
    paalaiCheck elevation coastDistance precipitation in
  Console.log "Paalai check:"
    [Obj [ ("passes", Bool paalaiCheck);
           ("reason", Str
              (if ! paalaiCheck then
                 if (precipitation >= T.(LOW_PRECIPITATION))
                 then "precipitation " ++ str precipitation ++ "mm >= "
                      ++ str T.(LOW_PRECIPITATION) ++ "mm"
                 else "elevation/coast issue"
               else "PASSES - PAALAI")) ]] ;;
  if paalaiCheck then Console.ret "Paalai" else

  (* 4. MULLAI (Forest/Pastoral) - Fourth Priority *)
  let mullaiCheck :=
    mullaiCheck elevation coastDistance precipitation in
  Console.log "Mullai check:"
    [Obj [ ("passes", Bool mullaiCheck);
           ("reason", Str
              (if ! mullaiCheck
               then "elevation/precipitation/coast conditions not met"
               else "PASSES - MULLAI")) ]] ;;
  if mullaiCheck then Console.ret "Mullai" else

  (* 5. MARUDHAM (Plains) - Default *)
  let marudhamCheck :=
    marudhamCheck elevation coastDistance precipitation in
  Console.log "Marudham check:"
    [Obj [ ("passes", Bool marudhamCheck);
           ("reason", Str
              (if ! marudhamCheck then "conditions not met"
               else "PASSES - MARUDHAM")) ]] ;;
  if marudhamCheck then Console.ret "Marudham" else

  (* Fallback: if none of the above match perfectly, use best fit *)
  Console.log "No exact match, using best fit algorithm" [] ;;
  Console.ret (getBestFitRegion elevation coastDistance precipitation).

(** Format elevation for display. *)
Definition formatElevation (meters : float) : string :=
  if meters < 0 then "Below sea level"
  else if meters < 1000 then str (js.(Math_round) meters) ++ " m"
  else js.(Number_toFixed) (meters / 1000) 2%Z ++ " km".

(** Format precipitation for display. *)
Definition formatPrecipitation (mm : float) : string :=
  str (js.(Math_round) mm) ++ " mm/year".

(** Get explanation for why a location was classified as a specific
    region.  [reasons] is the array the source pushes to, in order; a
    [region] that is none of the five labels leaves it empty. *)
Definition getClassificationExplanation
           (region : string) (terrainData : TerrainData) : list string :=
  let elevation := terrainData.(elevation) in
  let coastDistance := terrainData.(coastDistance) in
  let precipitation := terrainData.(precipitation) in
  let T := THRESHOLDS in
  if String.eqb region "Neithal" then
    [ "Within " ++ str T.(COASTAL_DISTANCE) ++ "km of the coast";
      "Low elevation (" ++ formatElevation elevation ++ ")" ]
  else if String.eqb region "Kurinji" then
    [ "High elevation (" ++ formatElevation elevation ++ ")";
      "Mountainous terrain" ]
  else if String.eqb region "Paalai" then
    [ "Low annual rainfall (" ++ formatPrecipitation precipitation ++ ")";
      "Arid conditions" ]
  else if String.eqb region "Mullai" then
    [ "Mid-altitude elevation (" ++ formatElevation elevation ++ ")";
      "Adequate rainfall for vegetation";
      "Inland location" ]
  else if String.eqb region "Marudham" then
    [ "Low elevation (" ++ formatElevation elevation ++ ")";
      "Adequate rainfall for agriculture";
      "Fertile plains" ]
  else [].

End WithBuiltins.

End TerrainAnalyzer.

(* ================================================================== *)
(** * The haversine formula in exact arithmetic, and the cache
      ([APIClient] in [js/api-client.js]) *)

Module APIClient.

Local Open Scope R_scope.
Local Open Scope Z_scope.

(** Cache configuration. *)
Definition CACHE_DURATION : Z := 24 * 60 * 60 * 1000.

Local Close Scope Z_scope.

(** The values [saveToCache] is given: a distance, or the [Infinity] or
    NaN a scan can end with. *)
Inductive number : Type :=
| NaN
| Infinity
| Finite (x : R).

(** [Math.sqrt] on a real: NaN below zero. *)
Definition Math_sqrt (x : R) : option R :=
  if Rlt_dec x 0 then None else Some (sqrt x).

(** [Math.atan2(y, x)] on reals, by quadrant. *)
Definition Math_atan2 (y x : R) : R :=
  if Rlt_dec 0 x then atan (y / x)
  else if Rlt_dec x 0 then
    if Rlt_dec y 0 then atan (y / x) - PI else atan (y / x) + PI
  else if Rlt_dec 0 y then PI / 2
  else if Rlt_dec y 0 then - (PI / 2)
  else 0.

Definition toRadians (degrees : R) : R := degrees * (PI / 180).

(** Calculate distance between two points using Haversine formula.
    Returns distance in kilometers; [None] is NaN.

    This is the formula with nothing rounded.  The program evaluates it on
    binary64 numbers ([APIClient64.haversineDistance]), where it can take
    the square root of a negative number; only [haversine_same_point] is
    stated on the exact reading. *)
Definition haversineDistance (lat1 lon1 lat2 lon2 : R) : option R :=
  let R := 6371 in (* Earth's radius in km *)
  let dLat := toRadians (lat2 - lat1) in
  let dLon := toRadians (lon2 - lon1) in
  let a := sin (dLat / 2) * sin (dLat / 2) +
           cos (toRadians lat1) * cos (toRadians lat2) *
           sin (dLon / 2) * sin (dLon / 2) in
  match Math_sqrt a, Math_sqrt (1 - a) with
  | Some sa, Some sb =>
      let c := 2 * Math_atan2 sa sb in
      let distance := R * c in
      Some distance
  | _, _ => None
  end.

(** The local constant [a] of [haversineDistance], as a function of its
    parameters. *)
Definition haversine_a (lat1 lon1 lat2 lon2 : R) : R :=
  let dLat := toRadians (lat2 - lat1) in
  let dLon := toRadians (lon2 - lon1) in
  sin (dLat / 2) * sin (dLat / 2) +
  cos (toRadians lat1) * cos (toRadians lat2) *
  sin (dLon / 2) * sin (dLon / 2).

(** ** The localStorage cache

    Only the entries under the keys [coast_<lat>_<lon>] matter here; a key
    is identified with its coordinate pair.  An item is the parsed JSON
    text [{ value, timestamp }]: JSON has no NaN and no Infinity, so such
    a [value] is stored, and read back, as [null]. *)
Record Item : Type := { value_ : option R; timestamp : Z }.

Definition Storage : Type := R -> R -> option Item.

Definition key_eq_dec (k1 k2 : R * R) : {k1 = k2} + {k1 <> k2}.
Proof.
  destruct k1 as [a b], k2 as [c d].
  destruct (Req_dec_T a c) as [-> | Hac];
    [destruct (Req_dec_T b d) as [-> | Hbd] |];
    [left; reflexivity | right; congruence | right; congruence].
Defined.

Definition setItem (st : Storage) (key : R * R) (it : Item) : Storage :=
  fun la lo => if key_eq_dec (la, lo) key then Some it else st la lo.

Definition removeItem (st : Storage) (key : R * R) : Storage :=
  fun la lo => if key_eq_dec (la, lo) key then None else st la lo.

Definition emptyStorage : Storage := fun _ _ => None.

(** What one call observes of the outside world: the two readings of
    [Date.now()] (on lookup and on save) and whether each access to
    [localStorage] succeeds.  An access that throws (storage unavailable,
    quota exceeded) is caught by [getFromCache] and [saveToCache]. *)
Record World : Type := {
  now_read : Z;
  now_write : Z;
  getItem_ok : bool;
  removeItem_ok : bool;
  setItem_ok : bool
}.

Definition JSON_number (v : number) : option R :=
  match v with
  | Finite x => Some x
  | _ => None
  end.

(** Get data from localStorage cache: the cached value or [null], and the
    storage after the lookup (an expired item is removed). *)
Definition getFromCache (w : World) (st : Storage) (key : R * R)
  : option R * Storage :=
  if negb w.(getItem_ok) then (None, st)           (* catch *)
  else
    match st (fst key) (snd key) with
    | None => (None, st)                            (* if (!item) *)
    | Some item =>
        (* Check if cache is still valid *)
        if (w.(now_read) - item.(timestamp) <? CACHE_DURATION)%Z
        then (item.(value_), st)
        (* Cache expired, remove it *)
        else if w.(removeItem_ok) then (None, removeItem st key)
        else (None, st)                             (* catch *)
    end.

(** Save data to localStorage cache. *)
Definition saveToCache (w : World) (st : Storage) (key : R * R)
           (v : number) : Storage :=
  if w.(setItem_ok)
  then setItem st key {| value_ := JSON_number v;
                         timestamp := w.(now_write) |}
  else st.

End APIClient.

(* ================================================================== *)
(** * The coast-distance estimator on binary64 numbers ([toRadians],
      [haversineDistance] and the loop of [getCoastDistance] of
      [APIClient])

    The arithmetic is that of JavaScript numbers; the functions of [Math]
    are those of the platform. *)

Module APIClient64.

Local Open Scope float_scope.

(** The [Math] object: the constant and the functions the formula calls.
    What they compute is the platform's business; they are given. *)

Record MathObject : Type := {
  Math_PI : float;
  Math_sin : float -> float;
  Math_cos : float -> float;
  Math_atan2 : float -> float -> float;
  Math_sqrt : float -> float
}.

(** A reference point [{ lat, lon }] with binary64 coordinates. *)
Record Coordinate : Set := { lat : float; lon : float }.

Section WithMath.

Variable Math : MathObject.

(** [toRadians], on binary64 numbers. *)
Definition toRadians (degrees : float) : float :=
  degrees * (Math.(Math_PI) / 180).

(** [haversineDistance], on binary64 numbers. *)
Definition haversineDistance (lat1 lon1 lat2 lon2 : float) : float :=
  let R := 6371 in
  let dLat := toRadians (lat2 - lat1) in
  let dLon := toRadians (lon2 - lon1) in
  let a := Math.(Math_sin) (dLat / 2) * Math.(Math_sin) (dLat / 2) +
           Math.(Math_cos) (toRadians lat1) * Math.(Math_cos) (toRadians lat2) *
           Math.(Math_sin) (dLon / 2) * Math.(Math_sin) (dLon / 2) in
  let c := 2 * Math.(Math_atan2) (Math.(Math_sqrt) a)
                                 (Math.(Math_sqrt) (1 - a)) in
  let distance := R * c in
  distance.

(** [Math.min] of two numbers: NaN if either is NaN, else the smaller one,
    with -0 smaller than +0. *)
Definition Math_min (a b : float) : float :=
  if PrimFloat.is_nan a || PrimFloat.is_nan b then nan
  else if b <? a then b
  else if a <? b then a
  else if get_sign b then b else a.

(** The loop of [getCoastDistance], on binary64 numbers. *)
Definition scan (lat lon : float) (minDistance : float)
           (coastalPoints : list Coordinate) : float :=
  fold_left
    (fun minDistance point =>
       let distance :=
         haversineDistance lat lon point.(APIClient64.lat)
                           point.(APIClient64.lon) in
       Math_min minDistance distance)
    coastalPoints minDistance.

End WithMath.

End APIClient64.

(* ================================================================== *)
(** * The specification's decision tables

    These definitions follow the wording of the specification (section 4.2),
    not the source: an ordered list of rules, each a category with its
    predicate over the sample and the thresholds, read by "the first
    predicate that holds determines the result". *)

Module Spec.

Local Open Scope float_scope.
Local Open Scope js_scope.

(** A TerrainSample is the triple the analyzer calls [terrainData]. *)
Definition TerrainSample : Set := TerrainData.

Definition sample (e c p : float) : TerrainSample :=
  {| elevation := e; coastDistance := c; precipitation := p |}.

(** The Thresholds record of section 3: coastalDistanceKm (50),
    highElevationM (1000), midElevationMinM (200), lowElevationM (200),
    lowPrecipitationMm (250). *)
Definition defaults : Thresholds := {|
  COASTAL_DISTANCE := 50;
  HIGH_ELEVATION := 1000;
  MID_ELEVATION_MIN := 200;
  LOW_ELEVATION := 200;
  LOW_PRECIPITATION := 250
|}.

Definition rule : Type := (Category * (TerrainSample -> bool))%type.

(** The priority table. *)
Definition strict_rules (T : Thresholds) : list rule :=
  [ (Neithal, fun s =>
       (s.(coastDistance) <= T.(COASTAL_DISTANCE))
       && (s.(elevation) < T.(LOW_ELEVATION)));
    (Kurinji, fun s =>
       (s.(elevation) >= T.(HIGH_ELEVATION))
       && (s.(coastDistance) > T.(COASTAL_DISTANCE)));
    (Paalai, fun s =>
       (s.(precipitation) < T.(LOW_PRECIPITATION))
       && (s.(elevation) < T.(HIGH_ELEVATION))
       && (s.(coastDistance) > T.(COASTAL_DISTANCE)));
    (Mullai, fun s =>
       (s.(elevation) >= T.(MID_ELEVATION_MIN))
       && (s.(elevation) < T.(HIGH_ELEVATION))
       && (s.(precipitation) >= T.(LOW_PRECIPITATION))
       && (s.(coastDistance) > T.(COASTAL_DISTANCE)));
    (Marudham, fun s =>
       (s.(elevation) < T.(LOW_ELEVATION))
       && (s.(precipitation) >= T.(LOW_PRECIPITATION))
       && (s.(coastDistance) > T.(COASTAL_DISTANCE))) ].

(** The fallback ("best fit") list, ending in the unconditional default. *)
Definition fallback_rules (T : Thresholds) : list rule :=
  [ (Neithal, fun s => s.(coastDistance) <= T.(COASTAL_DISTANCE) * 1.5);
    (Kurinji, fun s => s.(elevation) >= T.(HIGH_ELEVATION) * 0.8);
    (Paalai, fun s => s.(precipitation) < T.(LOW_PRECIPITATION) * 1.2);
    (Mullai, fun s =>
       (s.(elevation) >= T.(MID_ELEVATION_MIN) * 0.8)
       && (s.(elevation) < T.(HIGH_ELEVATION)));
    (Marudham, fun _ => true) ].

(** The category of the first rule whose predicate holds. *)
Fixpoint first_match (rules : list rule) (s : TerrainSample)
  : option Category :=
  match rules with
  | [] => None
  | (cat, holds) :: rest =>
      if holds s then Some cat else first_match rest s
  end.

(** The checks a short-circuit evaluation performs, in order, each with
    its outcome: every rule up to and including the first that holds. *)
Fixpoint evaluated (rules : list rule) (s : TerrainSample)
  : list (Category * bool) :=
  match rules with
  | [] => []
  | (cat, holds) :: rest =>
      (cat, holds s) :: (if holds s then [] else evaluated rest s)
  end.

(** The two tiers together. *)
Definition classify (T : Thresholds) (s : TerrainSample)
  : option Category :=
  match first_match (strict_rules T) s with
  | Some cat => Some cat
  | None => first_match (fallback_rules T) s
  end.

End Spec.

(** ** Reading the console

    The checks the instrumented analyzer reports: for every logged object
    with a [passes] field, the message and that field. *)

Fixpoint field (name : string) (fields : list (string * value))
  : option value :=
  match fields with
  | [] => None
  | (k, v) :: rest => if String.eqb k name then Some v else field name rest
  end.

Definition reported_check (e : log_entry) : list (string * bool) :=
  match e.(log_args) with
  | [Obj fields] =>
      match field "passes" fields with
      | Some (Bool b) => [(e.(log_message), b)]
      | _ => []
      end
  | _ => []
  end.

Definition reported_checks (out : list log_entry) : list (string * bool) :=
  flat_map reported_check out.

Definition check_message (c : Category) : string := label c ++ " check:".

(* ================================================================== *)
(** * The loop of the instrumented copy of the estimator (second
      [APIClient] object of [js/api-client.js]), on binary64 numbers

    Its [getCoastDistance] keeps the nearest point beside the distance and
    compares with [<] where the first copy calls [Math.min]. *)

Module APIClientInstrumented64.

Import APIClient64.

Local Open Scope float_scope.

Section WithMath.

Variable Math : MathObject.

(** The body of the loop, on the two variables it updates. *)
Definition step (lat lon : float) (vars : float * option Coordinate)
           (point : Coordinate) : float * option Coordinate :=
  let '(minDistance, closestPoint) := vars in
  let distance :=
    haversineDistance Math lat lon point.(APIClient64.lat)
                      point.(APIClient64.lon) in
  if distance <? minDistance
  then (distance, Some point)
  else (minDistance, closestPoint).

(** The loop: [minDistance] and [closestPoint] when it ends. *)
Definition scan (lat lon : float) (coastalPoints : list Coordinate)
  : float * option Coordinate :=
  fold_left (step lat lon) coastalPoints (infinity, None).

End WithMath.

End APIClientInstrumented64.

(** A [Math] object to evaluate the formula with: the small-angle
    approximations of sine, cosine and arc tangent.  The properties below
    hold for every [Math] object, or for every one with an odd sine. *)
Definition example_math : APIClient64.MathObject := {|
  APIClient64.Math_PI := 3.141592653589793%float;
  APIClient64.Math_sin := fun x => x;
  APIClient64.Math_cos := fun _ => 1%float;
  APIClient64.Math_atan2 := fun y x => (y / x)%float;
  APIClient64.Math_sqrt := PrimFloat.sqrt
|}.

(** A [Math] object for the instance at the antipode: the correctly
    rounded sine and cosine at the arguments met there (8 and 90 degrees in
    radians, and their opposites), NaN for the square root of a negative
    number and for an arc tangent of NaN, as ECMAScript prescribes. *)
Definition rounded_math : APIClient64.MathObject := {|
  APIClient64.Math_PI := 3.141592653589793%float;
  APIClient64.Math_sin := fun x =>
    (if x =? 0.13962634015954636 then 0.13917310096006544
     else if x =? -0.13962634015954636 then -0.13917310096006544
     else if x =? 1.5707963267948966 then 1
     else if x =? -1.5707963267948966 then -1
     else x)%float;
  APIClient64.Math_cos := fun x =>
    (if PrimFloat.abs x =? 0.13962634015954636 then 0.9902680687415704
     else 1)%float;
  APIClient64.Math_atan2 := fun y x =>
    (if PrimFloat.is_nan x then nan else y / x)%float;
  APIClient64.Math_sqrt := fun x =>
    (if x <? 0 then nan else PrimFloat.sqrt x)%float
|}.

(* ================================================================== *)
(** * Requests with retries ([fetchWithRetry] of [APIClient])

    The network is given: what the request of each attempt comes to.  A
    call is described by what it completes with and by what it does on
    the way: its requests, its console lines and its sleeps, in order. *)

Module Requests.

Local Open Scope Z_scope.

Definition MAX_RETRIES : nat := 3.
Definition RETRY_DELAY : Z := 1000. (* Initial retry delay in ms *)

(** What is thrown inside the [try] block: the [Error] made for a response
    that is not [ok], or the reason [fetch] or [response.json()] rejects
    with. *)
Inductive error : Type :=
| HttpError (status : Z)        (* `HTTP error! status: ${response.status}` *)
| Rejection (reason : string).

Inductive event : Type :=
| Fetch (attempt : nat)                 (* await fetch(url) *)
| RetryLog (attempt : Z) (delay : Z)    (* console.log(`Retry attempt ...`) *)
| Sleep (ms : Z).                       (* await this.sleep(delay) *)

Section WithData.

(** The parsed JSON body of a response. *)
Variable Data : Type.

(** What one attempt comes to. *)
Inductive attempt_result : Type :=
| Body (data : Data)    (* response.ok, and the body parses *)
| Fails (e : error).

(** How the call completes.  The loop that ends without returning leaves
    the function at its end: the promise resolves with [undefined]. *)
Inductive completion : Type :=
| Return (data : Data)
| Throw (e : error)
| ReturnUndefined.

Variable fetch : nat -> attempt_result.

(** The loop [for (let attempt = 0; attempt < retries; attempt++)], on the
    values of [attempt] still to come. *)
Fixpoint attempts (retries : nat) (todo : list nat)
  : list event * completion :=
  match todo with
  | [] => ([], ReturnUndefined)
  | attempt :: todo =>
      match fetch attempt with
      | Body data => ([Fetch attempt], Return data)
      | Fails error =>
          let isLastAttempt := Nat.eqb attempt (retries - 1) in
          if isLastAttempt then ([Fetch attempt], Throw error)
          else
            (* Exponential backoff; the product is the integer it is in
               binary64 for every attempt up to 1013 *)
            let delay := RETRY_DELAY * 2 ^ Z.of_nat attempt in
            let '(events, c) := attempts retries todo in
            (Fetch attempt :: RetryLog (Z.of_nat attempt + 1) delay
                   :: Sleep delay :: events, c)
      end
  end.

(** Fetch with retry logic and exponential backoff. *)
Definition fetchWithRetry (retries : nat) : list event * completion :=
  attempts retries (seq 0 retries).

End WithData.

Arguments Body {Data}.
Arguments Fails {Data}.
Arguments Return {Data}.
Arguments Throw {Data}.
Arguments ReturnUndefined {Data}.

(** The requests made, and the sleeps taken, in a list of events. *)
Definition requests (events : list event) : list nat :=
  flat_map (fun e => match e with Fetch a => [a] | _ => [] end) events.

Definition sleeps (events : list event) : list Z :=
  flat_map (fun e => match e with Sleep ms => [ms] | _ => [] end) events.

End Requests.

(* ================================================================== *)
(** * The getters that compute or fetch a number ([getCoastDistance] and
      [getAnnualPrecipitation] of [APIClient]), on binary64 numbers

    The cache is read here with its keys as the strings they are and its
    values as binary64 numbers: [JSON.stringify] writes NaN and the
    infinities as [null] and both zeros as [0]. *)

Module APIClientData.

Import Requests.

Local Open Scope string_scope.
Local Open Scope float_scope.

Record Item : Type := { value_ : option float; timestamp : Z }.

Definition Storage : Type := string -> option Item.

Definition setItem (st : Storage) (key : string) (it : Item) : Storage :=
  fun k => if String.eqb k key then Some it else st k.

Definition removeItem (st : Storage) (key : string) : Storage :=
  fun k => if String.eqb k key then None else st k.

Definition emptyStorage : Storage := fun _ => None.

(** A number through [JSON.stringify] and [JSON.parse]. *)
Definition JSON_number (v : float) : option float :=
  if PrimFloat.is_nan v || PrimFloat.is_infinity v then None
  else if v =? 0 then Some 0
  else Some v.

(** Get data from localStorage cache. *)
Definition getFromCache (w : APIClient.World) (st : Storage) (key : string)
  : option float * Storage :=
  if negb w.(APIClient.getItem_ok) then (None, st)   (* catch *)
  else
    match st key with
    | None => (None, st)                              (* if (!item) *)
    | Some item =>
        (* Check if cache is still valid *)
        if (w.(APIClient.now_read) - item.(timestamp)
            <? APIClient.CACHE_DURATION)%Z
        then (item.(value_), st)
        (* Cache expired, remove it *)
        else if w.(APIClient.removeItem_ok) then (None, removeItem st key)
        else (None, st)                               (* catch *)
    end.

(** Save data to localStorage cache. *)
Definition saveToCache (w : APIClient.World) (st : Storage) (key : string)
           (v : float) : Storage :=
  if w.(APIClient.setItem_ok)
  then setItem st key {| value_ := JSON_number v;
                         timestamp := w.(APIClient.now_write) |}
  else st.

(** What [getAnnualPrecipitation] reads of a response body:
    [data.daily.precipitation_sum] when [data], [data.daily] and it are
    truthy and it is an array, of numbers and [null]s as the archive sends
    them; [None] for a body of any other shape. *)
Definition Daily : Type := option (list (option float)).

(** [val || 0] on a number or [null]. *)
Definition or_zero (val : option float) : float :=
  match val with
  | Some x => if (x =? 0) || PrimFloat.is_nan x then 0 else x
  | None => 0
  end.

(** Sum up all daily precipitation values. *)
Definition total (precipitation_sum : list (option float)) : float :=
  fold_left (fun sum val => sum + or_zero val) precipitation_sum 0.

Section WithRuntime.

Variable js : Builtins.

(** Get annual precipitation: the value returned, the storage after the
    call, and the requests and sleeps of the call. *)
Definition getAnnualPrecipitation
           (w : APIClient.World) (fetch : nat -> attempt_result Daily)
           (st : Storage) (lat lon : float)
  : float * Storage * list event :=
  let cacheKey := "precipitation_" ++ Number_toString js lat
                  ++ "_" ++ Number_toString js lon in
  let '(cached, st) := getFromCache w st cacheKey in
  match cached with
  | Some cached => (cached, st, [])
  | None =>
      let '(events, data) := fetchWithRetry Daily fetch MAX_RETRIES in
      match data with
      | Return (Some precipitation_sum) =>
          let totalPrecipitation := total precipitation_sum in
          (totalPrecipitation,
           saveToCache w st cacheKey totalPrecipitation, events)
      | _ =>
          (* Return a default value for areas without precipitation data *)
          (500, st, events)
      end
  end.

(** Calculate distance to nearest coastline: the value returned and the
    storage after the call.  [getCoastalReferencePoints] is the list the
    method of that name returns. *)
Definition getCoastDistance
           (Math : APIClient64.MathObject)
           (getCoastalReferencePoints : list APIClient64.Coordinate)
           (w : APIClient.World) (st : Storage) (lat lon : float)
  : float * Storage :=
  let cacheKey := "coast_" ++ Number_toString js lat
                  ++ "_" ++ Number_toString js lon in
  let '(cached, st) := getFromCache w st cacheKey in
  match cached with
  | Some cached => (cached, st)
  | None =>
      let coastalPoints := getCoastalReferencePoints in
      let minDistance :=
        APIClient64.scan Math lat lon infinity coastalPoints in
      (minDistance, saveToCache w st cacheKey minDistance)
  end.

End WithRuntime.

End APIClientData.

(* ================================================================== *)
(** * The reference points ([getCoastalReferencePoints] of [APIClient])

    The function builds its list with loops of the form
    [for (let x = from; x <= to; x += step)] on binary64 numbers.  They
    are run here with a bound on the number of rounds, and [None] when it
    is exceeded; that it is not is a property below. *)

Module ReferencePoints.

Import APIClient64.

Local Open Scope float_scope.

(** The points pushed by [for (let x = from; x <= to; x += step) body]. *)
Fixpoint for_le (fuel : nat) (x to step : float)
         (body : float -> option (list Coordinate))
  : option (list Coordinate) :=
  if x <=? to then
    match fuel with
    | O => None
    | S fuel =>
        match body x, for_le fuel (x + step) to step body with
        | Some pushed, Some rest => Some (pushed ++ rest)%list
        | _, _ => None
        end
    end
  else Some [].

(** The pushes of a sequence of statements, in order. *)
Fixpoint statements (blocks : list (option (list Coordinate)))
  : option (list Coordinate) :=
  match blocks with
  | [] => Some []
  | block :: blocks =>
      match block, statements blocks with
      | Some pushed, Some rest => Some (pushed ++ rest)%list
      | _, _ => None
      end
  end.

Definition point (lat lon : float) : Coordinate :=
  {| lat := lat; lon := lon |}.

(** MAJOR INDIAN COASTAL CITIES (explicit points for accuracy) *)
Definition indianCoastalCities : list Coordinate :=
  [ point 13.08 80.27;   (* Chennai *)
    point 11.93 79.83;   (* Puducherry *)
    point 8.09 77.54;    (* Kanyakumari *)
    point 9.93 76.27;    (* Kochi *)
    point 11.25 75.78;   (* Kozhikode *)
    point 12.87 74.84;   (* Mangalore *)
    point 15.30 73.99;   (* Goa (Panaji) *)
    point 19.08 72.88;   (* Mumbai *)
    point 18.97 72.82;   (* Navi Mumbai *)
    point 21.17 72.83;   (* Surat *)
    point 17.69 83.22;   (* Visakhapatnam *)
    point 20.27 85.83;   (* Bhubaneswar (near coast) *)
    point 22.57 88.36 ]. (* Kolkata *)

Section WithMath.

Variable Math : MathObject.

(** The bound on the rounds of a loop. *)
Variable fuel : nat.

Local Abbreviation loop := (for_le fuel).

Definition getCoastalReferencePoints : option (list Coordinate) :=
  statements
    [ Some indianCoastalCities;
      (* West coast of India (Arabian Sea) *)
      loop 8 23 0.5 (fun lat =>
        Some [ point lat (68 + (lat - 8) * 0.3) ]);
      (* South coast of India (Indian Ocean) *)
      loop 76 81 0.3 (fun lon =>
        Some [ point (8 + Math.(Math_sin) (lon - 76) * 0.5) lon ]);
      (* East coast of India (Bay of Bengal) *)
      loop 8 22 0.3 (fun lat =>
        Some [ point lat (80.1 + (lat - 8) * 0.1) ]);
      (* Sri Lanka coastline *)
      loop 6 10 0.5 (fun lat =>
        Some [ point lat 80; point lat 79.5 ]);
      (* Bangladesh coast *)
      loop 21 23 0.5 (fun lat => Some [ point lat 90 ]);
      (* Southeast Asia (Thailand, Malaysia, Vietnam) *)
      loop 1 20 1 (fun lat => Some [ point lat 100; point lat 105 ]);
      loop 1 7 0.5 (fun lat => Some [ point lat 103 ]);
      (* NORTH AMERICA: East Coast (Atlantic) *)
      loop 25 45 1.5 (fun lat =>
        Some [ point lat (-80 + (lat - 25) * 0.5) ]);
      (* West Coast (Pacific) *)
      loop 32 49 1.5 (fun lat =>
        Some [ point lat (-117 - (lat - 32) * 0.2) ]);
      (* Gulf of Mexico *)
      loop (-97) (-80) 2 (fun lon => Some [ point 29 lon ]);
      (* SOUTH AMERICA: East Coast (Atlantic) *)
      loop (-35) 5 2 (fun lat => Some [ point lat (-35 - lat * 0.3) ]);
      (* West Coast (Pacific) *)
      loop (-55) 0 2 (fun lat => Some [ point lat (-70) ]);
      (* EUROPE: Western Europe (Atlantic) *)
      loop 36 60 1.5 (fun lat =>
        Some [ point lat (-5 - (lat - 36) * 0.2) ]);
      (* Mediterranean *)
      loop (-5) 36 2 (fun lon =>
        Some [ point (35 + Math.(Math_sin) (lon * 0.1) * 5) lon ]);
      (* AFRICA: West Coast (Atlantic) *)
      loop (-35) 35 2 (fun lat =>
        Some [ point lat (10 + PrimFloat.abs lat * 0.15) ]);
      (* East Coast (Indian Ocean) *)
      loop (-35) 10 2 (fun lat => Some [ point lat (35 + lat * 0.3) ]);
      (* EAST ASIA: China coast *)
      loop 18 40 1.5 (fun lat => Some [ point lat (115 + lat * 0.2) ]);
      (* Japan *)
      loop 30 45 1 (fun lat =>
        Some [ point lat (135 + (lat - 30) * 0.5);
               point lat (139 + (lat - 30) * 0.3) ]);
      (* Korea *)
      loop 34 39 1 (fun lat => Some [ point lat 126; point lat 129 ]);
      (* AUSTRALIA: East coast *)
      loop (-38) (-10) 2 (fun lat => Some [ point lat (145 + lat * 0.2) ]);
      (* West coast *)
      loop (-35) (-15) 2 (fun lat => Some [ point lat 115 ]);
      (* MIDDLE EAST: Persian Gulf *)
      loop 24 30 1 (fun lat => Some [ point lat 50 ]);
      (* Red Sea *)
      loop 12 28 1.5 (fun lat => Some [ point lat 37; point lat 40 ]);
      (* POLAR REGIONS: Arctic Ocean (every 5 degrees) *)
      loop (-180) 180 5 (fun lon => Some [ point 70 lon ]);
      (* Antarctica (every 5 degrees) *)
      loop (-180) 180 5 (fun lon => Some [ point (-65) lon ]);
      (* ISLANDS & ADDITIONAL POINTS: Indonesia *)
      loop (-8) 6 1 (fun lat =>
        loop 95 140 3 (fun lon =>
          if JsNum.ge lat (-6) && JsNum.le lat 6
             && JsNum.ge lon 95 && JsNum.le lon 141
          then Some [ point lat lon ]
          else Some []));
      (* Caribbean *)
      loop 10 25 2 (fun lat =>
        loop (-85) (-60) 2 (fun lon => Some [ point lat lon ]));
      (* New Zealand *)
      Some [ point (-41) 174 ];
      Some [ point (-37) 174 ];
      Some [ point (-45) 170 ] ].

End WithMath.

End ReferencePoints.

(* ================================================================== *)
(** * Rate limiting ([Geocoding.enforceRateLimit] in
      [js/terrain-analyzer.js])

    Calls are taken one after the other: a call starts after the one
    before it has ended. *)

Module Geocoding.

Local Open Scope Z_scope.

(** Minimum delay between requests (in milliseconds) *)
Definition MIN_REQUEST_DELAY : Z := 1000.

(** What a call reads of the clock: [Date.now()] on its first line, and
    [Date.now()] on its last line, given the time the call waited for in
    between ([None]: it did not wait). *)
Record Clock : Type := { now : Z; later : option Z -> Z }.

(** Enforce rate limiting for API requests: the time waited for, and
    [lastRequestTime] after the call. *)
Definition enforceRateLimit (lastRequestTime : Z) (clock : Clock)
  : option Z * Z :=
  let now := clock.(now) in
  let timeSinceLastRequest := now - lastRequestTime in
  let waited :=
    if timeSinceLastRequest <? MIN_REQUEST_DELAY
    then
      let waitTime := MIN_REQUEST_DELAY - timeSinceLastRequest in
      Some waitTime
    else None in
  (waited, clock.(later) waited).

(** The values [lastRequestTime] takes over successive calls. *)
Fixpoint requestTimes (lastRequestTime : Z) (clocks : list Clock) : list Z :=
  match clocks with
  | [] => []
  | clock :: clocks =>
      let t := snd (enforceRateLimit lastRequestTime clock) in
      t :: requestTimes t clocks
  end.

End Geocoding.

(** A clock that does not go back and a timer that does not fire early. *)
Definition timely (clock : Geocoding.Clock) : Prop :=
  (clock.(Geocoding.now) <= clock.(Geocoding.later) None)%Z
  /\ forall ms, (clock.(Geocoding.now) + ms
                 <= clock.(Geocoding.later) (Some ms))%Z.

(** Times each at least a second after the one before, from [t] on. *)
Fixpoint spaced (t : Z) (times : list Z) : Prop :=
  match times with
  | [] => True
  | t' :: times => (t + 1000 <= t')%Z /\ spaced t' times
  end.

(* ================================================================== *)
(** * The history of classified locations ([HistoryModule] in
      [js/history.js], called by [App.showResults])

    The stored item is read as the list of entries it holds.  An entry is
    taken as it is in the stored JSON text: a coordinate that was NaN or
    infinite when it was saved is [null] there.  The rendering of the
    chips is left out. *)

Module HistoryModule.

Local Open Scope float_scope.

Definition MAX_ITEMS : nat := 5.

Record Entry : Type := {
  locationName : string;
  region : string;
  icon : string;
  color : string;
  lat : option float;
  lon : option float;
  ts : Z
}.

(** The item under [STORAGE_KEY], when there is one. *)
Definition Storage : Type := option (list Entry).

(** A stored coordinate as an operand of [-]: [null] converts to 0. *)
Definition toNumber (v : option float) : float :=
  match v with
  | Some x => x
  | None => 0
  end.

(** Load history from localStorage. *)
Definition load (w : APIClient.World) (st : Storage) : list Entry :=
  if w.(APIClient.getItem_ok)
  then match st with
       | Some history => history
       | None => []
       end
  else [].                                            (* catch *)

(** The test of the filter of [save]: [h] is not at the location saved. *)
Definition elsewhere (lat lon : float) (h : Entry) : bool :=
  JsNum.gt (PrimFloat.abs (toNumber h.(HistoryModule.lat) - lat)) 0.01
  || JsNum.gt (PrimFloat.abs (toNumber h.(HistoryModule.lon) - lon)) 0.01.

(** Save a result to history (deduplicates by coords): the stored item
    after the call. *)
Definition save (w : APIClient.World) (st : Storage)
           (locationName region icon color : string) (lat lon : float)
  : Storage :=
  let history := load w st in
  (* Remove duplicate if same location exists *)
  let filtered := filter (elsewhere lat lon) history in
  (* Prepend new entry *)
  let filtered :=
    {| locationName := locationName; region := region; icon := icon;
       color := color;
       lat := APIClientData.JSON_number lat;
       lon := APIClientData.JSON_number lon;
       ts := w.(APIClient.now_write) |} :: filtered in
  (* Keep only last MAX_ITEMS *)
  let trimmed := firstn MAX_ITEMS filtered in
  if w.(APIClient.setItem_ok) then Some trimmed else st.   (* catch *)

End HistoryModule.

(** The arguments of a call of [HistoryModule.save], with what the call
    sees of the world. *)
Record SaveCall : Type := {
  call_world : APIClient.World;
  call_locationName : string;
  call_region : string;
  call_icon : string;
  call_color : string;
  call_lat : float;
  call_lon : float
}.

(** The stored history after successive calls of [save]. *)
Definition saved (st : HistoryModule.Storage) (calls : list SaveCall)
  : HistoryModule.Storage :=
  fold_left
    (fun st c =>
       HistoryModule.save c.(call_world) st c.(call_locationName)
                          c.(call_region) c.(call_icon) c.(call_color)
                          c.(call_lat) c.(call_lon))
    calls st.

(** Two stored entries are at different places: their latitudes or their
    longitudes differ by more than 0.01 degree. *)
Definition apart (h1 h2 : HistoryModule.Entry) : Prop :=
  (0.01 <? PrimFloat.abs
             (HistoryModule.toNumber h2.(HistoryModule.lat)
              - HistoryModule.toNumber h1.(HistoryModule.lat)))%float = true
  \/ (0.01 <? PrimFloat.abs
                (HistoryModule.toNumber h2.(HistoryModule.lon)
                 - HistoryModule.toNumber h1.(HistoryModule.lon)))%float
     = true.

(** A history in order: at most five entries, no two of them at the same
    place. *)
Definition tidy (st : HistoryModule.Storage) : Prop :=
  match st with
  | Some history =>
      (List.length history <= 5)%nat /\ ForallOrdPairs apart history
  | None => True
  end.

(* ================================================================== *)
(** * Properties *)

(** ** Binary64 numbers

    *** Order

    The comparison primitives are specified by [SFcompare] on the decoded
    value.  Everything the classifier needs is that two numbers are either
    unordered (one of them is NaN) or in exactly one of the three usual
    positions, and that [<=] is transitive. *)

Module Binary64.

Import JsNum.

Local Open Scope float_scope.

Lemma SFcompare_antisym (x y : spec_float) :
  SFcompare y x = option_map CompOpp (SFcompare x y).
Proof.
  destruct x as [sx|sx| |sx mx ex], y as [sy|sy| |sy my ey]; simpl;
    try destruct sx; try destruct sy; try reflexivity;
    rewrite (Z.compare_antisym ex ey);
    destruct (ex ?= ey)%Z; simpl; try reflexivity;
    rewrite (Pos.compare_cont_antisym mx my Eq); simpl;
    destruct (Pos.compare_cont Eq my mx); reflexivity.
Qed.

Lemma SFcompare_refl (x : spec_float) :
  SFcompare x x = if JsNum.sf_is_nan x then None else Some Eq.
Proof.
  destruct x as [s|s| |s m e]; simpl; try destruct s; try reflexivity;
    rewrite Z.compare_refl, Pos.compare_cont_refl; reflexivity.
Qed.

Lemma SFcompare_None (x y : spec_float) :
  SFcompare x y = None -> JsNum.sf_is_nan x || JsNum.sf_is_nan y = true.
Proof.
  destruct x as [s|s| |s m e], y as [s'|s'| |s' m' e']; simpl;
    try destruct s; try destruct s'; try discriminate; reflexivity.
Qed.

Lemma SFcompare_Some (x y : spec_float) (c : comparison) :
  SFcompare x y = Some c ->
  JsNum.sf_is_nan x = false /\ JsNum.sf_is_nan y = false.
Proof.
  destruct x as [s|s| |s m e], y as [s'|s'| |s' m' e']; simpl;
    try discriminate; split; reflexivity.
Qed.

Lemma is_nan_spec (x : float) :
  PrimFloat.is_nan x = JsNum.sf_is_nan (Prim2SF x).
Proof.
  unfold PrimFloat.is_nan. rewrite FloatAxioms.eqb_spec. unfold SFeqb.
  rewrite SFcompare_refl. destruct (JsNum.sf_is_nan (Prim2SF x)); reflexivity.
Qed.

Lemma position_of (x y : float) : position x y.
Proof.
  pose proof (SFcompare_antisym (Prim2SF x) (Prim2SF y)) as Ha.
  destruct (SFcompare (Prim2SF x) (Prim2SF y)) as [c|] eqn:Hc.
  - destruct (SFcompare_Some _ _ _ Hc) as [Hx Hy].
    rewrite <- is_nan_spec in Hx, Hy.
    destruct c; simpl in Ha;
      [apply Level | apply Below | apply Above]; trivial;
      rewrite ?ltb_spec, ?leb_spec; unfold SFltb, SFleb;
      rewrite ?Hc, ?Ha; reflexivity.
  - pose proof (SFcompare_None _ _ Hc) as Hn.
    rewrite <- !is_nan_spec in Hn. simpl in Ha.
    apply Unordered; trivial;
      rewrite ?ltb_spec, ?leb_spec; unfold SFltb, SFleb;
      rewrite ?Hc, ?Ha; reflexivity.
Qed.

Lemma SFleb_trans (x y z : spec_float) :
  SFleb x y = true -> SFleb y z = true -> SFleb x z = true.
Proof.
  unfold SFleb.
  destruct x as [sx|sx| |sx mx ex], y as [sy|sy| |sy my ey],
           z as [sz|sz| |sz mz ez]; simpl;
    try destruct sx; try destruct sy; try destruct sz; simpl;
    try discriminate; try reflexivity;
    change (Pos.compare_cont Eq) with Pos.compare;
    destruct (Z.compare_spec ex ey); destruct (Z.compare_spec ey ez);
    destruct (Z.compare_spec ex ez); try lia; simpl;
    try discriminate; try reflexivity; subst;
    destruct (Pos.compare_spec mx my); destruct (Pos.compare_spec my mz);
    destruct (Pos.compare_spec mx mz); simpl; try lia;
    try discriminate; try reflexivity.
Qed.

Lemma leb_trans (x y z : float) :
  (x <=? y) = true -> (y <=? z) = true -> (x <=? z) = true.
Proof. rewrite !leb_spec. apply SFleb_trans. Qed.

Lemma leb_refl (a : float) : PrimFloat.is_nan a = false -> (a <=? a) = true.
Proof.
  intros Na. rewrite leb_spec. unfold SFleb. rewrite SFcompare_refl.
  rewrite <- is_nan_spec, Na. reflexivity.
Qed.

(** *** Signs

    Rounding to nearest does not look at the sign, so negation commutes
    with multiplication and division, and swapping the operands of a
    subtraction negates the result unless it is zero. *)

Lemma Prim2SF_inj (x y : float) : Prim2SF x = Prim2SF y -> x = y.
Proof.
  intros H. rewrite <- (SF2Prim_Prim2SF x), <- (SF2Prim_Prim2SF y), H.
  reflexivity.
Qed.

(** Nothing but Infinity is at or above Infinity. *)
Lemma infinity_le (x : float) : (infinity <=? x) = true -> x = infinity.
Proof.
  rewrite leb_spec. intros H. apply Prim2SF_inj.
  change (Prim2SF infinity) with (S754_infinity false) in *.
  destruct (Prim2SF x) as [s|s| |s m e]; try destruct s; try discriminate H.
  reflexivity.
Qed.

Lemma binary_round_aux_opp (s : bool) (m e : Z) (l : location) :
  binary_round_aux prec emax (negb s) m e l =
  SFopp (binary_round_aux prec emax s m e l).
Proof.
  unfold binary_round_aux.
  destruct (shr_fexp prec emax m e l) as [mrs' e'].
  destruct (shr_fexp prec emax _ e' loc_Exact) as [mrs'' e''].
  destruct (shr_m mrs''); simpl; try reflexivity.
  destruct (e'' <=? _)%Z; reflexivity.
Qed.

Lemma binary_round_opp (s : bool) (m : positive) (e : Z) :
  binary_round prec emax (negb s) m e = SFopp (binary_round prec emax s m e).
Proof.
  unfold binary_round.
  destruct (shl_align m e _) as [mz ez]. apply binary_round_aux_opp.
Qed.

Lemma SFopp_involutive (x : spec_float) : SFopp (SFopp x) = x.
Proof. destruct x; simpl; rewrite ?negb_involutive; reflexivity. Qed.

Lemma SFmul_comm (x y : spec_float) :
  SFmul prec emax x y = SFmul prec emax y x.
Proof.
  destruct x as [sx|sx| |sx mx ex], y as [sy|sy| |sy my ey]; simpl;
    rewrite ?(xorb_comm sx sy); try reflexivity.
  rewrite (Pos.mul_comm mx my), (Z.add_comm ex ey). reflexivity.
Qed.

Lemma SFmul_opp_l (x y : spec_float) :
  SFmul prec emax (SFopp x) y = SFopp (SFmul prec emax x y).
Proof.
  destruct x as [sx|sx| |sx mx ex], y as [sy|sy| |sy my ey]; simpl;
    rewrite <- ?negb_xorb_l; try reflexivity.
  apply binary_round_aux_opp.
Qed.

Lemma SFdiv_opp_l (x y : spec_float) :
  SFdiv prec emax (SFopp x) y = SFopp (SFdiv prec emax x y).
Proof.
  destruct x as [sx|sx| |sx mx ex], y as [sy|sy| |sy my ey]; simpl;
    rewrite <- ?negb_xorb_l; try reflexivity.
  destruct (SFdiv_core_binary prec emax (Z.pos mx) ex (Z.pos my) ey)
    as [[mz ez] lz].
  apply binary_round_aux_opp.
Qed.

Lemma binary_normalize_opp (m e : Z) :
  m <> 0%Z ->
  binary_normalize prec emax (- m) e false =
  SFopp (binary_normalize prec emax m e false).
Proof.
  destruct m as [|m|m]; intros Hm; [congruence| |]; simpl.
  - apply (binary_round_opp false).
  - rewrite (binary_round_opp false), SFopp_involutive. reflexivity.
Qed.

Lemma SFsub_swap (x y : spec_float) :
  SFsub prec emax y x = SFopp (SFsub prec emax x y)
  \/ SFsub prec emax y x = SFsub prec emax x y.
Proof.
  destruct x as [sx|sx| |sx mx ex], y as [sy|sy| |sy my ey];
    try (simpl; try destruct sx; try destruct sy; simpl; auto; fail).
  unfold SFsub. cbv zeta. rewrite (Z.min_comm ey ex).
  set (ez := Z.min ex ey).
  set (a := cond_Zopp sx (Z.pos (fst (shl_align mx ex ez)))).
  set (b := cond_Zopp sy (Z.pos (fst (shl_align my ey ez)))).
  destruct (Z.eq_dec (a - b) 0) as [E|E].
  - right. replace (b - a)%Z with 0%Z by lia. rewrite E. reflexivity.
  - left. replace (b - a)%Z with (- (a - b))%Z by lia.
    apply binary_normalize_opp. exact E.
Qed.

Lemma mul_comm (x y : float) : x * y = y * x.
Proof. apply Prim2SF_inj. rewrite !mul_spec. apply SFmul_comm. Qed.

Lemma mul_opp_l (x y : float) : (- x) * y = - (x * y).
Proof.
  apply Prim2SF_inj. rewrite mul_spec, !opp_spec, mul_spec. apply SFmul_opp_l.
Qed.

Lemma div_opp_l (x y : float) : (- x) / y = - (x / y).
Proof.
  apply Prim2SF_inj. rewrite div_spec, !opp_spec, div_spec. apply SFdiv_opp_l.
Qed.

Lemma opp_involutive (x : float) : - - x = x.
Proof. apply Prim2SF_inj. rewrite !opp_spec. apply SFopp_involutive. Qed.

Lemma sub_swap (x y : float) : y - x = - (x - y) \/ y - x = x - y.
Proof.
  destruct (SFsub_swap (Prim2SF x) (Prim2SF y)) as [H|H]; [left|right];
    apply Prim2SF_inj; rewrite ?opp_spec, !sub_spec; exact H.
Qed.

Lemma mul_opp_opp (x y : float) : (- x) * (- y) = x * y.
Proof.
  rewrite mul_opp_l, (mul_comm x (- y)), mul_opp_l, opp_involutive.
  apply mul_comm.
Qed.

Lemma mul_opp_opp_r (c x : float) : c * (- x) * (- x) = c * x * x.
Proof.
  rewrite (mul_comm c (- x)), mul_opp_l, mul_opp_opp, (mul_comm x c).
  reflexivity.
Qed.

(** *** Strict and large comparisons *)

Lemma ltb_leb (x y : float) : (x <? y) = true -> (x <=? y) = true.
Proof.
  intros H.
  destruct (position_of x y) as [N A B C D | Nx Ny A B C D | Nx Ny A B C D
                                 | Nx Ny A B C D]; congruence.
Qed.

Lemma ltb_not_nan (x y : float) :
  (x <? y) = true -> PrimFloat.is_nan x = false.
Proof.
  intros H.
  destruct (position_of x y) as [N A B C D | Nx Ny A B C D | Nx Ny A B C D
                                 | Nx Ny A B C D]; congruence.
Qed.

Lemma not_ltb_leb (x y : float) :
  PrimFloat.is_nan x = false -> PrimFloat.is_nan y = false ->
  (x <? y) = false -> (y <=? x) = true.
Proof.
  intros Hx Hy H.
  destruct (position_of x y) as [N A B C D | Nx Ny A B C D | Nx Ny A B C D
                                 | Nx Ny A B C D]; try congruence.
  rewrite Hx, Hy in N. discriminate N.
Qed.

Lemma leb_antisym_eqb (x y : float) :
  (x <=? y) = true -> (y <=? x) = true -> (x =? y) = true.
Proof.
  rewrite !leb_spec, FloatAxioms.eqb_spec. unfold SFleb, SFeqb.
  rewrite (SFcompare_antisym (Prim2SF x) (Prim2SF y)).
  destruct (SFcompare (Prim2SF x) (Prim2SF y)) as [[]|]; simpl; congruence.
Qed.

Lemma ltb_widen (x a b : float) :
  (x <? a) = true -> (a <=? b) = true -> (x <? b) = true.
Proof.
  intros Hxa Hab.
  destruct (position_of x b) as [N A B C D | Nx Nb A B C D | Nx Nb A B C D
                                 | Nx Nb A B C D]; [| exact A | | ].
  - rewrite (ltb_not_nan x a Hxa) in N. cbn [orb] in N.
    destruct (position_of a b) as [_ _ L _ _ | _ Nb _ _ _ _ | _ Nb _ _ _ _
                                   | _ Nb _ L _ _]; congruence.
  - pose proof (leb_trans a b x Hab D) as Hax.
    destruct (position_of x a) as [_ L _ _ _ | _ _ _ _ _ G | _ _ L _ _ _
                                   | _ _ L _ _ _]; congruence.
  - pose proof (leb_trans a b x Hab D) as Hax.
    destruct (position_of x a) as [_ L _ _ _ | _ _ _ _ _ G | _ _ L _ _ _
                                   | _ _ L _ _ _]; congruence.
Qed.

(** *** NaN and equality *)

Lemma is_nan_eq (x : float) : PrimFloat.is_nan x = true -> x = nan.
Proof.
  rewrite is_nan_spec. intros H. apply Prim2SF_inj.
  destruct (Prim2SF x); try discriminate H. reflexivity.
Qed.

Lemma eqb_refl (x : float) : PrimFloat.is_nan x = false -> (x =? x) = true.
Proof.
  intros N. rewrite FloatAxioms.eqb_spec. unfold SFeqb.
  rewrite SFcompare_refl, <- is_nan_spec, N. reflexivity.
Qed.

Lemma eqb_sym (x y : float) : (x =? y) = (y =? x).
Proof.
  rewrite !FloatAxioms.eqb_spec. unfold SFeqb.
  rewrite (SFcompare_antisym (Prim2SF x) (Prim2SF y)).
  destruct (SFcompare (Prim2SF x) (Prim2SF y)) as [[]|]; reflexivity.
Qed.

(** *** Squares of numbers of magnitude at most 1, and differences of
        equal numbers *)

Lemma digits2_pos_lower (p : positive) :
  (2 ^ (Zpos (digits2_pos p) - 1) <= Zpos p)%Z.
Proof.
  induction p as [p IH|p IH|]; cbn [digits2_pos].
  - rewrite Pos2Z.inj_succ. replace (Z.succ (Zpos (digits2_pos p)) - 1)%Z
      with (Z.succ (Zpos (digits2_pos p) - 1))%Z by lia.
    rewrite Z.pow_succ_r by lia. lia.
  - rewrite Pos2Z.inj_succ. replace (Z.succ (Zpos (digits2_pos p)) - 1)%Z
      with (Z.succ (Zpos (digits2_pos p) - 1))%Z by lia.
    rewrite Z.pow_succ_r by lia. lia.
  - simpl. lia.
Qed.

Lemma digits2_pos_upper (p : positive) :
  (Zpos p < 2 ^ Zpos (digits2_pos p))%Z.
Proof.
  induction p as [p IH|p IH|]; cbn [digits2_pos].
  - rewrite Pos2Z.inj_succ, Z.pow_succ_r by lia. lia.
  - rewrite Pos2Z.inj_succ, Z.pow_succ_r by lia. lia.
  - simpl. lia.
Qed.

Lemma Zdigits2_bound (m k : Z) :
  (0 <= k)%Z -> (0 <= m < 2 ^ k)%Z -> (Zdigits2 m <= k)%Z.
Proof.
  intros Hk [H0 Hm]. destruct m as [|p|p]; simpl; [lia| |lia].
  pose proof (digits2_pos_lower p) as L.
  destruct (Z_le_gt_dec (Zpos (digits2_pos p)) k) as [|G]; [assumption|].
  exfalso. assert (2 ^ k <= 2 ^ (Zpos (digits2_pos p) - 1))%Z
    by (apply Z.pow_le_mono_r; lia). lia.
Qed.

Lemma shr_1_bound (mrs : shr_record) :
  (0 <= shr_m mrs)%Z -> (0 <= shr_m (shr_1 mrs) <= shr_m mrs)%Z.
Proof.
  destruct mrs as [m r s]. cbn [shr_m]. intros H.
  destruct m as [|[p|p|]|p]; cbn; lia.
Qed.

Lemma iter_shr_1_bound (n : positive) (mrs : shr_record) :
  (0 <= shr_m mrs)%Z -> (0 <= shr_m (SpecFloat.iter_pos shr_1 n mrs) <= shr_m mrs)%Z.
Proof.
  revert mrs. induction n as [n IH|n IH|]; intros mrs H; cbn [SpecFloat.iter_pos].
  - pose proof (shr_1_bound mrs H) as H1.
    pose proof (IH _ (proj1 H1)) as H2.
    pose proof (IH _ (proj1 H2)) as H3. lia.
  - pose proof (IH _ H) as H2.
    pose proof (IH _ (proj1 H2)) as H3. lia.
  - apply shr_1_bound, H.
Qed.

Lemma shr_fexp_bound (m e : Z) (k : Z) :
  (0 <= k)%Z -> (0 <= m < 2 ^ k)%Z ->
  let r := shr_fexp prec emax m e loc_Exact in
  (0 <= shr_m (fst r) <= m)%Z
  /\ (snd r <= Z.max e (Z.max (k + e - prec) (SpecFloat.emin prec emax)))%Z.
Proof.
  intros Hk Hm. unfold shr_fexp, shr. cbn [shr_record_of_loc].
  pose proof (Zdigits2_bound m k Hk Hm) as Hd.
  unfold SpecFloat.fexp.
  destruct (Z.max (Zdigits2 m + e - prec) (SpecFloat.emin prec emax) - e)%Z
    as [|p|p] eqn:E; cbn [fst snd shr_m].
  - lia.
  - pose proof (iter_shr_1_bound p {| shr_m := m; shr_r := false; shr_s := false |}) as H.
    cbn [shr_m] in H. split; [apply H; lia|]. lia.
  - lia.
Qed.

Lemma round_nearest_even_bound (m : Z) (l : location) :
  (m <= round_nearest_even m l <= m + 1)%Z.
Proof.
  destruct l as [|[]]; cbn [round_nearest_even]; try lia.
  destruct (Z.even m); lia.
Qed.

(** A product of two mantissas below 2^53 with an exponent of at most
    -104 rounds to a finite number or to zero. *)
Lemma binary_round_aux_small (s : bool) (p : positive) (e : Z) :
  (Zpos p < 2 ^ 106)%Z -> (e <= -104)%Z ->
  match binary_round_aux prec emax s (Zpos p) e loc_Exact with
  | S754_zero s' | S754_finite s' _ _ => s' = s
  | _ => False
  end.
Proof.
  intros Hp He. unfold binary_round_aux.
  pose proof (shr_fexp_bound (Zpos p) e 106 ltac:(lia) ltac:(lia)) as H1.
  cbv zeta in H1.
  destruct (shr_fexp prec emax (Zpos p) e loc_Exact) as [mrs' e'].
  cbn [fst snd] in H1. destruct H1 as [Hm' He'].
  pose proof (round_nearest_even_bound (shr_m mrs') (loc_of_shr_record mrs')) as Hr.
  set (m1 := round_nearest_even (shr_m mrs') (loc_of_shr_record mrs')) in *.
  assert (H106 : (2 ^ 106 < 2 ^ 107)%Z) by (apply Z.pow_lt_mono_r; lia).
  pose proof (shr_fexp_bound m1 e' 107 ltac:(lia) ltac:(lia)) as H2.
  cbv zeta in H2.
  destruct (shr_fexp prec emax m1 e' loc_Exact) as [mrs'' e''].
  cbn [fst snd] in H2. destruct H2 as [Hm'' He''].
  unfold prec, emax, SpecFloat.emin in *.
  destruct (shr_m mrs'') as [|q|q]; [reflexivity| |lia].
  destruct (e'' <=? 1024 - 53)%Z eqn:L; [reflexivity|].
  apply Z.leb_gt in L. lia.
Qed.

(** The square of a number of magnitude at most 1 is finite and not
    negative: times +0 it is +0. *)
Lemma square_times_zero (c : float) :
  (PrimFloat.abs c <=? 1) = true -> c * c * 0 = 0.
Proof.
  rewrite leb_spec, abs_spec. intros H. apply Prim2SF_inj.
  rewrite !mul_spec.
  pose proof (Prim2SF_valid c) as V.
  change (Prim2SF 1) with (S754_finite false 4503599627370496 (-52)) in H.
  change (Prim2SF 0) with (S754_zero false).
  destruct (Prim2SF c) as [s|s| |s m e]; try discriminate H.
  - destruct s; reflexivity.
  - cbn [SFabs] in H. unfold SFleb in H. cbn [SFcompare] in H.
    assert (He : (e <= -52)%Z).
    { destruct (e ?= -52)%Z eqn:C; try discriminate H.
      - apply Z.compare_eq in C. lia.
      - change (e < -52)%Z in C. lia. }
    cbn [valid_binary] in V. unfold bounded, canonical_mantissa in V.
    apply andb_prop in V. destruct V as [V _]. apply Z.eqb_eq in V.
    unfold SpecFloat.fexp, prec, emax, SpecFloat.emin in V.
    pose proof (digits2_pos_upper m) as U.
    assert (Hm : (Zpos m < 2 ^ 53)%Z).
    { apply Z.lt_le_trans with (1 := U). apply Z.pow_le_mono_r; lia. }
    unfold SF64mul. cbn [SFmul].
    pose proof (binary_round_aux_small (xorb s s) (m * m) (e + e)) as R.
    assert (Hmm : (Zpos (m * m) < 2 ^ 106)%Z).
    { rewrite Pos2Z.inj_mul. change (2 ^ 106)%Z with (2 ^ 53 * 2 ^ 53)%Z. nia. }
    specialize (R Hmm ltac:(lia)).
    destruct (binary_round_aux prec emax (xorb s s) (Z.pos (m * m)) (e + e) loc_Exact)
      as [s'|s'| |s' m' e']; try contradiction; subst s';
      destruct s; reflexivity.
Qed.

(** A finite number minus itself is +0. *)
Lemma sub_diag (x : float) : PrimFloat.is_finite x = true -> x - x = 0.
Proof.
  unfold PrimFloat.is_finite, PrimFloat.is_infinity. rewrite is_nan_spec, FloatAxioms.eqb_spec, FloatAxioms.abs_spec.
  intros H. apply Prim2SF_inj. rewrite sub_spec.
  change (Prim2SF infinity) with (S754_infinity false) in H.
  change (Prim2SF 0) with (S754_zero false).
  destruct (Prim2SF x) as [s|s| |s m e]; try discriminate H.
  - destruct s; reflexivity.
  - unfold SF64sub. cbn [SFsub]. cbv zeta. rewrite Z.sub_diag. reflexivity.
Qed.

End Binary64.

(** ** The classifier *)

Section Classifier.

Variable js : Builtins.

Import Spec Binary64.

Local Open Scope float_scope.

Local Abbreviation run := (TerrainAnalyzer.applyClassificationRules js).

(** Splits on the outcome of the next strict check of the goal. *)
Ltac next_check :=
  match goal with
  | |- context [if ?b then Console.ret _ else _] =>
      let E := fresh "Check" in destruct b eqn:E
  end.

Ltac unfold_checks :=
  unfold TerrainAnalyzer.neithalCheck, TerrainAnalyzer.kurinjiCheck,
    TerrainAnalyzer.paalaiCheck, TerrainAnalyzer.mullaiCheck,
    TerrainAnalyzer.marudhamCheck.

Ltac thresholds :=
  cbn [TerrainAnalyzer.THRESHOLDS defaults
       COASTAL_DISTANCE HIGH_ELEVATION MID_ELEVATION_MIN LOW_ELEVATION
       LOW_PRECIPITATION] in *.

Ltac tables :=
  cbn [strict_rules fallback_rules first_match evaluated classify sample
       elevation coastDistance precipitation] in *.

Ltac comparisons := unfold JsNum.le, JsNum.lt, JsNum.ge, JsNum.gt in *.

(** Rewrites the four comparisons of [x] with [t] by their outcome, in
    each of the positions [x] can have relative to [t]; [x] is known not
    to be NaN by [Hx], and [t] is a literal. *)
Ltac order x t Hx :=
  let N := fresh "N" in
  let A := fresh "A" in
  let B := fresh "B" in
  let C := fresh "C" in
  let D := fresh "D" in
  destruct (position_of x t) as
    [N A B C D | _ _ A B C D | _ _ A B C D | _ _ A B C D];
  [rewrite Hx in N; discriminate N | | | ];
  rewrite ?A, ?B, ?C, ?D in *.

(** The value returned by the instrumented analyzer, without its log. *)
Lemma run_result (e c p : float) :
  Console.result (run e c p) =
    if TerrainAnalyzer.neithalCheck e c p then "Neithal"
    else if TerrainAnalyzer.kurinjiCheck e c p then "Kurinji"
    else if TerrainAnalyzer.paalaiCheck e c p then "Paalai"
    else if TerrainAnalyzer.mullaiCheck e c p then "Mullai"
    else if TerrainAnalyzer.marudhamCheck e c p then "Marudham"
    else TerrainAnalyzer.getBestFitRegion e c p.
Proof.
  unfold TerrainAnalyzer.applyClassificationRules.
  repeat (next_check; [reflexivity|]). reflexivity.
Qed.

Lemma run_plain (e c p : float) :
  Console.result (run e c p) =
    TerrainAnalyzerPlain.applyClassificationRules e c p.
Proof. rewrite run_result. reflexivity. Qed.

Lemma label_inj (a b : Category) : label a = label b -> a = b.
Proof. destruct a, b; simpl; intros H; try reflexivity; discriminate H. Qed.

(** The relaxed thresholds of the best fit are exact in binary64. *)
Lemma relaxed_thresholds :
  50 * 1.5 = 75 /\ 1000 * 0.8 = 800 /\ 250 * 1.2 = 300 /\ 200 * 0.8 = 160.
Proof. repeat split; reflexivity. Qed.

(** The best fit, with its thresholds multiplied out. *)
Lemma best_fit_literal (e c p : float) :
  TerrainAnalyzer.getBestFitRegion e c p =
    if JsNum.le c 75 then "Neithal"
    else if JsNum.ge e 800 then "Kurinji"
    else if JsNum.lt p 300 then "Paalai"
    else if JsNum.ge e 160 && JsNum.lt e 1000 then "Mullai"
    else "Marudham".
Proof.
  unfold TerrainAnalyzer.getBestFitRegion. thresholds.
  destruct relaxed_thresholds as (-> & -> & -> & ->). reflexivity.
Qed.

(** The best fit is always one of the five labels. *)
Lemma best_fit_label (e c p : float) :
  exists cat, TerrainAnalyzer.getBestFitRegion e c p = label cat.
Proof.
  rewrite best_fit_literal.
  destruct (JsNum.le c 75); [exists Neithal; reflexivity|].
  destruct (JsNum.ge e 800); [exists Kurinji; reflexivity|].
  destruct (JsNum.lt p 300); [exists Paalai; reflexivity|].
  destruct (JsNum.ge e 160 && JsNum.lt e 1000);
    [exists Mullai | exists Marudham]; reflexivity.
Qed.

Lemma run_label (e c p : float) :
  exists cat, Console.result (run e c p) = label cat.
Proof.
  rewrite run_result.
  destruct (TerrainAnalyzer.neithalCheck e c p); [exists Neithal; reflexivity|].
  destruct (TerrainAnalyzer.kurinjiCheck e c p); [exists Kurinji; reflexivity|].
  destruct (TerrainAnalyzer.paalaiCheck e c p); [exists Paalai; reflexivity|].
  destruct (TerrainAnalyzer.mullaiCheck e c p); [exists Mullai; reflexivity|].
  destruct (TerrainAnalyzer.marudhamCheck e c p);
    [exists Marudham; reflexivity|].
  apply best_fit_label.
Qed.

(** The checks of the analyzer are the predicates of the priority table. *)
Lemma checks_are_rules (e c p : float) :
  map (fun r : rule => snd r (sample e c p)) (strict_rules defaults) =
    [ TerrainAnalyzer.neithalCheck e c p;
      TerrainAnalyzer.kurinjiCheck e c p;
      TerrainAnalyzer.paalaiCheck e c p;
      TerrainAnalyzer.mullaiCheck e c p;
      TerrainAnalyzer.marudhamCheck e c p ].
Proof. reflexivity. Qed.

(** No rule of the priority table holds: the five checks fail. *)
Lemma no_strict_match (e c p : float) :
  first_match (strict_rules defaults) (sample e c p) = None ->
  TerrainAnalyzer.neithalCheck e c p = false
  /\ TerrainAnalyzer.kurinjiCheck e c p = false
  /\ TerrainAnalyzer.paalaiCheck e c p = false
  /\ TerrainAnalyzer.mullaiCheck e c p = false
  /\ TerrainAnalyzer.marudhamCheck e c p = false.
Proof.
  unfold_checks. tables. thresholds.
  repeat match goal with
         | |- (if ?b then Some _ else _) = None -> _ =>
             destruct b; [discriminate|]
         end.
  intros _. repeat split; reflexivity.
Qed.

(** The two tiers of the specification, read as one function, are the
    analyzer. *)
Lemma run_classify (e c p : float) :
  option_map label (classify defaults (sample e c p)) =
    Some (Console.result (run e c p)).
Proof.
  rewrite run_result. unfold_checks.
  unfold TerrainAnalyzer.getBestFitRegion, classify. tables. thresholds.
  repeat match goal with
         | |- context [if ?b then _ else _] => destruct b
         end; reflexivity.
Qed.

(** Two numbers, one below or equal to the other, are not NaN. *)
Lemma le_not_nan (a x : float) :
  JsNum.le a x = true ->
  PrimFloat.is_nan a = false /\ PrimFloat.is_nan x = false.
Proof.
  unfold JsNum.le. intros H.
  destruct (position_of a x)
    as [_ _ L _ _ | N N' _ _ _ _ | N N' _ _ _ _ | _ _ _ L _ _];
    try (split; assumption); congruence.
Qed.

(** NaN compares false with everything. *)
Lemma nan_unordered (x t : float) :
  PrimFloat.is_nan x = true ->
  JsNum.le x t = false /\ JsNum.lt x t = false
  /\ JsNum.ge x t = false /\ JsNum.gt x t = false.
Proof.
  intros Hx. comparisons.
  destruct (position_of x t) as [_ A B C D|N _ _ _ _ _|N _ _ _ _ _|N _ _ _ _ _];
    [repeat split; assumption | | | ]; rewrite Hx in N; discriminate N.
Qed.

(** On numbers that are not NaN the strict tier leaves a gap only at the
    coast: the best fit is reached exactly by the inputs within the
    coastal cutoff whose elevation is not low, and it answers Neithal. *)
Lemma best_fit_reached (e c p : float) :
  JsNum.isNaN e = false -> JsNum.isNaN c = false ->
  JsNum.isNaN p = false ->
  first_match (strict_rules defaults) (sample e c p) = None ->
  JsNum.le c 50 = true /\ JsNum.ge e 200 = true
  /\ Console.result (run e c p) = "Neithal".
Proof.
  unfold JsNum.isNaN. intros He Hc Hp H.
  destruct (no_strict_match e c p H) as (H1 & H2 & H3 & H4 & H5).
  rewrite run_result, H1, H2, H3, H4, H5, best_fit_literal.
  clear H. revert H1 H2 H3 H4 H5. unfold_checks. thresholds. comparisons.
  order c 50 Hc; order e 200 He; order e 1000 He; order p 250 Hp;
    cbn; intros; try discriminate;
    (assert (Hc75 : (c <=? 75) = true)
      by (apply (leb_trans c 50 75); [assumption | reflexivity]));
    rewrite Hc75; repeat split; reflexivity.
Qed.

(** *** Known values (section 8 of the specification) *)

Example chennai : Console.result (run 7 2 1400) = "Neithal".
Proof. reflexivity. Qed.

Example high_interior (p : float) :
  Console.result (run 3500 800 p) = "Kurinji".
Proof. reflexivity. Qed.

Example arid : Console.result (run 50 600 150) = "Paalai".
Proof. reflexivity. Qed.

Example forest :
  Console.result (run 500 600 1200) = "Mullai"
  /\ reported_checks (Console.output (run 500 600 1200)) =
     [ ("Neithal check:", false); ("Kurinji check:", false);
       ("Paalai check:", false); ("Mullai check:", true) ].
Proof. split; reflexivity. Qed.

Example plains : Console.result (run 100 600 900) = "Marudham".
Proof. reflexivity. Qed.

(** The sample the specification proposes for the fallback (600, 50.5,
    250) is matched by the Mullai rule, as the specification suspects; a
    sample of the gap is (600, 50, 250). *)
Example not_gapped : Console.result (run 600 50.5 250) = "Mullai".
Proof. reflexivity. Qed.

Example gapped :
  first_match (strict_rules defaults) (sample 600 50 250) = None
  /\ Console.result (run 600 50 250) = "Neithal"
  /\ last (Console.output (run 600 50 250)) (Log "" []) =
     Log "No exact match, using best fit algorithm" [].
Proof. repeat split; reflexivity. Qed.

(** C1.  The instrumented analyzer decides by the specification's priority
    table under the default thresholds: its result is the label of the
    first rule, in the order Neithal, Kurinji, Paalai, Mullai, Marudham,
    whose predicate holds (and the best fit when none does), and the
    checks it reports on the console are exactly the rules up to and
    including that first match, in that order, each with the outcome of
    its predicate. *)
Theorem strict_tier_first_match (e c p : float) :
  Console.result (run e c p) =
    match first_match (strict_rules defaults) (sample e c p) with
    | Some cat => label cat
    | None => TerrainAnalyzer.getBestFitRegion e c p
    end
  /\ reported_checks (Console.output (run e c p)) =
     map (fun r => (check_message (fst r), snd r))
         (evaluated (strict_rules defaults) (sample e c p)).
Proof.
  unfold TerrainAnalyzer.applyClassificationRules. unfold_checks.
  tables. thresholds.
  repeat (next_check; [split; reflexivity|]).
  split; reflexivity.
Qed.

(** C2.  On every input triple on which none of the five strict
    predicates holds, the result is the label of the first rule of the
    fallback list (coastDistance <= 50 x 1.5, elevation >= 1000 x 0.8,
    precipitation < 250 x 1.2, elevation >= 200 x 0.8 and
    elevation < 1000, otherwise Marudham); the four products are the
    binary64 numbers 75, 800, 300 and 160. *)
Theorem fallback_tier_best_fit (e c p : float) :
  first_match (strict_rules defaults) (sample e c p) = None ->
  option_map label (first_match (fallback_rules defaults) (sample e c p))
    = Some (Console.result (run e c p))
  /\ Console.result (run e c p) =
       (if JsNum.le c 75 then "Neithal"
        else if JsNum.ge e 800 then "Kurinji"
        else if JsNum.lt p 300 then "Paalai"
        else if JsNum.ge e 160 && JsNum.lt e 1000 then "Mullai"
        else "Marudham").
Proof.
  intros H.
  destruct (no_strict_match e c p H) as (H1 & H2 & H3 & H4 & H5).
  rewrite run_result, H1, H2, H3, H4, H5. split.
  - unfold TerrainAnalyzer.getBestFitRegion. tables. thresholds.
    repeat match goal with
           | |- context [if ?b then _ else _] => destruct b
           end; reflexivity.
  - apply best_fit_literal.
Qed.

(** C3.  Classification is total: for a finite elevation, a coast
    distance >= 0 and a precipitation >= 0 the analyzer returns the label
    of exactly one of the five categories. *)
Theorem classification_total (e c p : float) :
  JsNum.isFinite e = true ->
  JsNum.ge c 0 = true ->
  JsNum.ge p 0 = true ->
  exists! cat : Category, Console.result (run e c p) = label cat.
Proof.
  intros _ _ _. destruct (run_label e c p) as [cat Hcat].
  exists cat. split; [exact Hcat|].
  intros cat' Hcat'. apply label_inj. congruence.
Qed.

(** C6.  The coastal rule is exact at its boundary.  With elevation 199
    and any precipitation >= 0, at coast distance 50 the strict coastal
    check itself holds ([<=] is inclusive): it is the first rule of the
    table that matches, the only check reported on the console, reported
    as passing, and the result is Neithal.  At coast distance 50.0001 the
    coastal check fails and the sample falls through to the later strict
    rules: Paalai matches when the precipitation is below 250 and
    Marudham otherwise, and the result is that label, not Neithal. *)
Theorem coastal_boundary_exact (p : float) :
  JsNum.ge p 0 = true ->
  (TerrainAnalyzer.neithalCheck 199 50 p = true
   /\ first_match (strict_rules defaults) (sample 199 50 p) = Some Neithal
   /\ reported_checks (Console.output (run 199 50 p)) =
      [("Neithal check:", true)]
   /\ Console.result (run 199 50 p) = "Neithal")
  /\ (TerrainAnalyzer.neithalCheck 199 50.0001 p = false
      /\ first_match (strict_rules defaults) (sample 199 50.0001 p) =
         Some (if JsNum.lt p 250 then Paalai else Marudham)
      /\ Console.result (run 199 50.0001 p) <> "Neithal"
      /\ Console.result (run 199 50.0001 p) =
         (if JsNum.lt p 250 then "Paalai" else "Marudham")).
Proof.
  intros Hp. apply le_not_nan in Hp. destruct Hp as [_ Hp].
  split; [repeat split; reflexivity|].
  split; [reflexivity|].
  rewrite !run_result, best_fit_literal.
  unfold_checks. tables. thresholds. comparisons. cbn.
  order p 250 Hp; repeat split; (reflexivity || discriminate).
Qed.

(** C7.  Under the default thresholds no input satisfies both the
    Neithal check and the Kurinji check: the first needs the coast
    distance at or below the cutoff that the second needs it above. *)
Theorem neithal_kurinji_exclusive (e c p : float) :
  TerrainAnalyzer.neithalCheck e c p && TerrainAnalyzer.kurinjiCheck e c p
  = false.
Proof.
  unfold_checks. thresholds. comparisons.
  destruct (position_of c 50) as [_ _ B C _ | _ _ _ B C _ | _ _ _ B C _
                                  | _ _ _ B C _];
    rewrite B, C; cbn; rewrite ?andb_false_r; reflexivity.
Qed.

(** The same for any thresholds: the first two rules of the priority
    table never hold together. *)
Lemma first_two_rules_exclusive (T : Thresholds) (s : TerrainSample) :
  match strict_rules T with
  | (_, neithal) :: (_, kurinji) :: _ => neithal s && kurinji s = false
  | _ => False
  end.
Proof.
  cbn. comparisons.
  destruct (position_of (coastDistance s) (COASTAL_DISTANCE T))
    as [_ _ B C _ | _ _ _ B C _ | _ _ _ B C _ | _ _ _ B C _];
    rewrite B, C; cbn; rewrite ?andb_false_r; reflexivity.
Qed.

(** C9.  The instrumented and the plain copy of the analyzer return the
    same label on every input, and so do their best-fit fallbacks. *)
Theorem instrumented_equals_plain (e c p : float) :
  Console.result (run e c p) =
    TerrainAnalyzerPlain.applyClassificationRules e c p
  /\ TerrainAnalyzer.getBestFitRegion e c p =
     TerrainAnalyzerPlain.getBestFitRegion e c p.
Proof.
  split; [|reflexivity].
  unfold TerrainAnalyzer.applyClassificationRules,
    TerrainAnalyzerPlain.applyClassificationRules.
  unfold_checks.
  cbn [TerrainAnalyzer.THRESHOLDS TerrainAnalyzerPlain.THRESHOLDS
       COASTAL_DISTANCE HIGH_ELEVATION MID_ELEVATION_MIN LOW_ELEVATION
       LOW_PRECIPITATION].
  repeat (next_check; [reflexivity|]).
  reflexivity.
Qed.

(** C10.  The analyzer returns a label on all numbers, NaN and the
    infinities included; when its three inputs are NaN, every comparison
    is false, all five checks are reported as failed, and the best fit
    falls through to Marudham. *)
Theorem nan_is_marudham (e c p : float) :
  (exists cat, Console.result (run e c p) = label cat)
  /\ (JsNum.isNaN e = true -> JsNum.isNaN c = true ->
      JsNum.isNaN p = true ->
      (forall x t, In x [e; c; p] ->
         JsNum.le x t = false /\ JsNum.lt x t = false
         /\ JsNum.ge x t = false /\ JsNum.gt x t = false)
      /\ reported_checks (Console.output (run e c p)) =
           map (fun cat => (check_message cat, false)) categories
      /\ Console.result (run e c p) = "Marudham").
Proof.
  split; [apply run_label|].
  unfold JsNum.isNaN. intros He Hc Hp.
  assert (Hchecks :
      TerrainAnalyzer.neithalCheck e c p = false
      /\ TerrainAnalyzer.kurinjiCheck e c p = false
      /\ TerrainAnalyzer.paalaiCheck e c p = false
      /\ TerrainAnalyzer.mullaiCheck e c p = false
      /\ TerrainAnalyzer.marudhamCheck e c p = false).
  { unfold_checks. thresholds.
    destruct (nan_unordered c 50 Hc) as (-> & _ & _ & ->).
    destruct (nan_unordered e 200 He) as (_ & -> & -> & _).
    destruct (nan_unordered e 1000 He) as (_ & -> & -> & _).
    destruct (nan_unordered p 250 Hp) as (_ & -> & -> & _).
    repeat split; reflexivity. }
  destruct Hchecks as (H1 & H2 & H3 & H4 & H5).
  split; [|split].
  - intros x t [<- | [<- | [<- | []]]]; apply nan_unordered; assumption.
  - unfold TerrainAnalyzer.applyClassificationRules.
    rewrite H1, H2, H3, H4, H5. reflexivity.
  - rewrite run_result, H1, H2, H3, H4, H5, best_fit_literal.
    destruct (nan_unordered c 75 Hc) as (-> & _ & _ & _).
    destruct (nan_unordered e 800 He) as (_ & _ & -> & _).
    destruct (nan_unordered p 300 Hp) as (_ & -> & _ & _).
    destruct (nan_unordered e 160 He) as (_ & _ & -> & _).
    reflexivity.
Qed.

(** What the explanation of a Neithal result is worth on numbers that are
    not NaN: "Within 50km of the coast" always holds, and "Low elevation"
    holds exactly when the strict check matched. *)
Lemma neithal_reasons (e c p : float) :
  JsNum.isNaN e = false -> JsNum.isNaN c = false ->
  JsNum.isNaN p = false ->
  Console.result (run e c p) = "Neithal" ->
  JsNum.le c 50 = true
  /\ JsNum.lt e 200 = TerrainAnalyzer.neithalCheck e c p.
Proof.
  unfold JsNum.isNaN. intros He Hc Hp. rewrite run_result, best_fit_literal.
  unfold_checks. thresholds. comparisons.
  order c 50 Hc; order e 200 He; order e 1000 He; order p 250 Hp;
    cbn; intros H; try discriminate H; split; reflexivity.
Qed.

(** In the whole coastal gap the explanation is the one of C4: the result
    is Neithal by best fit and its second reason, "Low elevation", is
    false. *)
Lemma low_elevation_reason_in_gap (e c p : float) :
  JsNum.le c 50 = true -> JsNum.ge e 200 = true ->
  TerrainAnalyzer.neithalCheck e c p = false
  /\ Console.result (run e c p) = "Neithal"
  /\ nth_error
       (TerrainAnalyzer.getClassificationExplanation
          js (Console.result (run e c p)) (sample e c p)) 1
     = Some ("Low elevation (" ++ TerrainAnalyzer.formatElevation js e ++ ")")
  /\ JsNum.lt e 200 = false.
Proof.
  intros Hc He.
  assert (Hc75 : JsNum.le c 75 = true)
    by (apply (leb_trans c 50 75); [exact Hc | reflexivity]).
  destruct (le_not_nan _ _ Hc) as [Nc _].
  destruct (le_not_nan _ _ He) as [_ Ne].
  assert (R : Console.result (run e c p) = "Neithal"
              /\ TerrainAnalyzer.neithalCheck e c p = false
              /\ JsNum.lt e 200 = false).
  { rewrite run_result, best_fit_literal, Hc75. revert Hc He.
    unfold_checks. thresholds. comparisons.
    order c 50 Nc; order e 200 Ne; cbn; intros Hc He;
      try discriminate Hc; try discriminate He;
      rewrite ?andb_false_r; repeat split; reflexivity. }
  destruct R as (R & Hn & Hlow). rewrite R.
  repeat split; assumption || reflexivity.
Qed.

(** C4 at a sample of the coastal gap (elevation 500, coast distance 30,
    precipitation 1000).  The strict Neithal check fails, the best fit
    answers Neithal, and the explanation generated for that result says
    "Low elevation" of an elevation that is not below the low-elevation
    threshold. *)
Theorem neithal_explanation_at_best_fit :
  TerrainAnalyzer.neithalCheck 500 30 1000 = false
  /\ Console.result (run 500 30 1000) = "Neithal"
  /\ TerrainAnalyzer.getClassificationExplanation
       js (Console.result (run 500 30 1000)) (sample 500 30 1000)
     = [ "Within " ++ Number_toString js 50 ++ "km of the coast";
         "Low elevation ("
           ++ (Number_toString js (Math_round js 500) ++ " m") ++ ")" ]
  /\ JsNum.lt 500 (LOW_ELEVATION TerrainAnalyzer.THRESHOLDS) = false.
Proof. repeat split; reflexivity. Qed.

(** *** Further properties of the classifier *)

(** X1.  On numbers that are not NaN the two tiers together are a plain
    decision tree: Neithal within the coastal cutoff, whatever the
    elevation; beyond it Kurinji from 1000 m up, else Paalai under 250 mm,
    else Mullai from 200 m up, else Marudham. *)
Theorem classification_decision_tree (e c p : float) :
  JsNum.isNaN e = false -> JsNum.isNaN c = false ->
  JsNum.isNaN p = false ->
  Console.result (run e c p) =
    if JsNum.le c 50 then "Neithal"
    else if JsNum.ge e 1000 then "Kurinji"
    else if JsNum.lt p 250 then "Paalai"
    else if JsNum.ge e 200 then "Mullai"
    else "Marudham".
Proof.
  unfold JsNum.isNaN. intros He Hc Hp.
  rewrite run_result, best_fit_literal.
  unfold_checks. thresholds. comparisons.
  order c 50 Hc; order e 200 He; order e 1000 He; order p 250 Hp;
    cbn; try reflexivity;
    (assert (Hc75 : (c <=? 75) = true)
      by (apply (leb_trans c 50 75); [assumption | reflexivity]));
    rewrite Hc75; reflexivity.
Qed.

(** X2.  On numbers that are not NaN the best fit is reached exactly in
    the coastal gap of the strict rules (coast distance within the cutoff,
    elevation not low), and there it answers Neithal: its other four
    answers need a NaN input. *)
Theorem best_fit_exactly_in_coastal_gap (e c p : float) :
  JsNum.isNaN e = false -> JsNum.isNaN c = false ->
  JsNum.isNaN p = false ->
  (first_match (strict_rules defaults) (sample e c p) = None <->
   JsNum.le c 50 = true /\ JsNum.ge e 200 = true)
  /\ (first_match (strict_rules defaults) (sample e c p) = None ->
      TerrainAnalyzer.getBestFitRegion e c p = "Neithal").
Proof.
  unfold JsNum.isNaN. intros He Hc Hp.
  rewrite best_fit_literal. tables. thresholds. comparisons.
  order c 50 Hc; order e 200 He; order e 1000 He; order p 250 Hp;
    cbn; (split; [split; [intros H; try discriminate H; split; reflexivity
                         | intros [H1 H2]; try discriminate H1;
                           try discriminate H2; reflexivity]
                 | intros H; try discriminate H]);
    (assert (Hc75 : (c <=? 75) = true)
      by (apply (leb_trans c 50 75); [assumption | reflexivity]));
    rewrite Hc75; reflexivity.
Qed.

(** X3.  With a coast distance that is NaN no strict rule can hold, and
    the result is the best fit on elevation and precipitation alone, with
    the relaxed thresholds; it is never Neithal. *)
Theorem nan_coast_distance (e c p : float) :
  JsNum.isNaN c = true ->
  first_match (strict_rules defaults) (sample e c p) = None
  /\ Console.result (run e c p) =
       (if JsNum.ge e 800 then "Kurinji"
        else if JsNum.lt p 300 then "Paalai"
        else if JsNum.ge e 160 && JsNum.lt e 1000 then "Mullai"
        else "Marudham")
  /\ Console.result (run e c p) <> "Neithal".
Proof.
  unfold JsNum.isNaN. intros Hc.
  assert (R : Console.result (run e c p) =
       (if JsNum.ge e 800 then "Kurinji"
        else if JsNum.lt p 300 then "Paalai"
        else if JsNum.ge e 160 && JsNum.lt e 1000 then "Mullai"
        else "Marudham")
       /\ first_match (strict_rules defaults) (sample e c p) = None).
  { rewrite run_result, best_fit_literal. unfold_checks. tables. thresholds.
    destruct (nan_unordered c 50 Hc) as (-> & _ & _ & ->).
    destruct (nan_unordered c 75 Hc) as (-> & _ & _ & _).
    rewrite !andb_false_r. cbn. split; reflexivity. }
  destruct R as [R Hnone]. split; [exact Hnone|]. split; [exact R|].
  rewrite R.
  destruct (JsNum.ge e 800); [discriminate|].
  destruct (JsNum.lt p 300); [discriminate|].
  destruct (JsNum.ge e 160 && JsNum.lt e 1000); discriminate.
Qed.

(** X4.  The explanation of a classification is never empty: every one of
    the five labels has two or three reasons, so has every result of the
    analyzer; any other region string gets none. *)
Theorem explanation_reasons (d : TerrainData) :
  (forall cat,
     2 <= List.length (TerrainAnalyzer.getClassificationExplanation
                         js (label cat) d) <= 3)%nat
  /\ (forall e c p,
        TerrainAnalyzer.getClassificationExplanation
          js (Console.result (run e c p)) d <> [])
  /\ (forall region, (forall cat, region <> label cat) ->
        TerrainAnalyzer.getClassificationExplanation js region d = []).
Proof.
  split; [|split].
  - intros cat. destruct cat; cbn; lia.
  - intros e c p. destruct (run_label e c p) as [cat ->].
    destruct cat; discriminate.
  - intros region Hregion.
    unfold TerrainAnalyzer.getClassificationExplanation.
    destruct (String.eqb_spec region "Neithal") as [E|_];
      [exfalso; exact (Hregion Neithal E)|].
    destruct (String.eqb_spec region "Kurinji") as [E|_];
      [exfalso; exact (Hregion Kurinji E)|].
    destruct (String.eqb_spec region "Paalai") as [E|_];
      [exfalso; exact (Hregion Paalai E)|].
    destruct (String.eqb_spec region "Mullai") as [E|_];
      [exfalso; exact (Hregion Mullai E)|].
    destruct (String.eqb_spec region "Marudham") as [E|_];
      [exfalso; exact (Hregion Marudham E)|].
    reflexivity.
Qed.

(** *** What a result says of the inputs *)

(** Walks down the chain of conditions of the goal to the branches that
    return the label in question. *)
Ltac walk :=
  repeat match goal with
         | |- (if ?b then _ else _) = _ -> _ =>
             let E := fresh "E" in destruct b eqn:E; try discriminate
         end.

Ltac chain :=
  rewrite run_result, best_fit_literal;
  unfold_checks; thresholds; comparisons.

Lemma neithal_within (e c p : float) :
  Console.result (run e c p) = "Neithal" -> JsNum.le c 75 = true.
Proof.
  chain. walk; intros _; [|reflexivity].
  apply andb_prop in E. destruct E as [E _].
  apply (leb_trans c 50 75); [exact E | reflexivity].
Qed.

Lemma kurinji_above (e c p : float) :
  Console.result (run e c p) = "Kurinji" -> JsNum.ge e 800 = true.
Proof.
  chain. walk; intros _; [|reflexivity].
  apply andb_prop in E0. destruct E0 as [E0 _].
  apply (leb_trans 800 1000 e); [reflexivity | exact E0].
Qed.

Lemma paalai_below (e c p : float) :
  Console.result (run e c p) = "Paalai" -> JsNum.lt p 300 = true.
Proof.
  chain. walk; intros _; [|reflexivity].
  apply andb_prop in E1. destruct E1 as [E1 _].
  apply andb_prop in E1. destruct E1 as [E1 _].
  apply (ltb_widen p 250 300); [exact E1 | reflexivity].
Qed.

Lemma mullai_between (e c p : float) :
  Console.result (run e c p) = "Mullai" ->
  JsNum.ge e 160 = true /\ JsNum.lt e 1000 = true.
Proof.
  chain. walk; intros _; [|apply andb_prop; assumption].
  repeat (match goal with
          | H : _ && _ = true |- _ =>
              apply andb_prop in H; destruct H
          end).
  split; [|assumption].
  apply (leb_trans 160 200 e); [reflexivity | assumption].
Qed.

(** The strict desert rule, reached: beyond the coastal cutoff and below
    the high elevation, a low precipitation gives Paalai. *)
Lemma paalai_reached (e c p : float) :
  JsNum.gt c 50 = true -> JsNum.lt e 1000 = true ->
  JsNum.lt p 250 = true ->
  Console.result (run e c p) = "Paalai".
Proof.
  rewrite run_result. unfold_checks. thresholds. comparisons.
  intros Hc He Hp. rewrite Hc, He, Hp.
  destruct (position_of c 50) as [_ _ _ C _ | _ _ _ _ C _ | _ _ _ _ C _
                                  | _ _ _ B _ _]; try congruence.
  destruct (position_of e 1000) as [_ A _ _ _ | _ _ _ _ _ D | _ _ A _ _ _
                                    | _ _ A _ _ _]; try congruence.
  rewrite B, D. reflexivity.
Qed.

(** X5.  What each result says of the inputs, NaN included: Neithal only
    within 75 km of the coast, Kurinji only from 800 m up, Paalai only
    under 300 mm a year, Mullai only from 160 m up and below 1000 m (the
    relaxed thresholds of the best fit, which contain the strict ones). *)
Theorem result_conditions (e c p : float) :
  (Console.result (run e c p) = "Neithal" -> JsNum.le c 75 = true)
  /\ (Console.result (run e c p) = "Kurinji" -> JsNum.ge e 800 = true)
  /\ (Console.result (run e c p) = "Paalai" -> JsNum.lt p 300 = true)
  /\ (Console.result (run e c p) = "Mullai" ->
      JsNum.ge e 160 = true /\ JsNum.lt e 1000 = true).
Proof.
  split; [exact (neithal_within e c p)|].
  split; [exact (kurinji_above e c p)|].
  split; [exact (paalai_below e c p) | exact (mullai_between e c p)].
Qed.

End Classifier.

Local Open Scope float_scope.

Lemma fallback_tier_best_fit_witness :
  Spec.first_match (Spec.strict_rules Spec.defaults)
                   (Spec.sample 500 30 1000) = None
  /\ Console.result
       (TerrainAnalyzer.applyClassificationRules example_runtime 500 30 1000)
     = "Neithal".
Proof.
  split; [reflexivity|].
  exact (proj2 (fallback_tier_best_fit example_runtime 500 30 1000 eq_refl)).
Defined.

Lemma classification_total_witness :
  JsNum.isFinite 12 = true /\ JsNum.ge 3 0 = true /\ JsNum.ge 900 0 = true
  /\ exists! cat : Category,
       Console.result
         (TerrainAnalyzer.applyClassificationRules example_runtime 12 3 900)
       = label cat.
Proof.
  repeat split; try reflexivity.
  apply (classification_total example_runtime 12 3 900); reflexivity.
Defined.

Lemma coastal_boundary_exact_witness :
  JsNum.ge 100 0 = true
  /\ TerrainAnalyzer.neithalCheck 199 50 100 = true
  /\ Console.result
       (TerrainAnalyzer.applyClassificationRules example_runtime 199 50 100)
     = "Neithal"
  /\ TerrainAnalyzer.neithalCheck 199 50.0001 100 = false
  /\ Console.result
       (TerrainAnalyzer.applyClassificationRules example_runtime
                                                 199 50.0001 100)
     = "Paalai".
Proof.
  split; [reflexivity|].
  destruct (coastal_boundary_exact example_runtime 100 eq_refl)
    as ((Hcheck & _ & _ & Hin) & (Hcheck' & _ & _ & Hout)).
  split; [exact Hcheck|]. split; [exact Hin|].
  split; [exact Hcheck' | exact Hout].
Defined.

Lemma nan_is_marudham_witness :
  JsNum.isNaN nan = true
  /\ Console.result
       (TerrainAnalyzer.applyClassificationRules example_runtime nan nan nan)
     = "Marudham".
Proof.
  split; [reflexivity|].
  apply (proj2 (nan_is_marudham example_runtime nan nan nan));
    reflexivity.
Defined.

Lemma classification_decision_tree_witness :
  JsNum.isNaN 300 = false /\ JsNum.isNaN 120 = false
  /\ JsNum.isNaN 900 = false
  /\ Console.result
       (TerrainAnalyzer.applyClassificationRules example_runtime 300 120 900)
     = "Mullai".
Proof.
  do 3 (split; [reflexivity|]).
  exact (classification_decision_tree example_runtime 300 120 900
           eq_refl eq_refl eq_refl).
Defined.

Lemma best_fit_exactly_in_coastal_gap_witness :
  JsNum.isNaN 600 = false /\ JsNum.isNaN 50 = false
  /\ JsNum.isNaN 250 = false
  /\ Spec.first_match (Spec.strict_rules Spec.defaults)
                      (Spec.sample 600 50 250) = None
  /\ TerrainAnalyzer.getBestFitRegion 600 50 250 = "Neithal".
Proof.
  do 4 (split; [reflexivity|]).
  apply (proj2 (best_fit_exactly_in_coastal_gap 600 50 250
                  eq_refl eq_refl eq_refl)).
  reflexivity.
Defined.

Lemma nan_coast_distance_witness :
  JsNum.isNaN nan = true
  /\ Console.result
       (TerrainAnalyzer.applyClassificationRules example_runtime 20 nan 100)
     <> "Neithal".
Proof.
  split; [reflexivity|].
  exact (proj2 (proj2 (nan_coast_distance example_runtime 20 nan 100
                         eq_refl))).
Defined.

Lemma explanation_reasons_witness :
  TerrainAnalyzer.getClassificationExplanation
    example_runtime "Ocean"
    {| elevation := 12; coastDistance := 3; precipitation := 900 |} = [].
Proof.
  apply (proj2 (proj2 (explanation_reasons example_runtime _))).
  intros cat; destruct cat; discriminate.
Defined.

(** ** The haversine formula in exact arithmetic *)

Module Geodesy.

Import APIClient.

Local Open Scope R_scope.

Lemma haversineDistance_a (lat1 lon1 lat2 lon2 : R) :
  haversineDistance lat1 lon1 lat2 lon2 =
    match Math_sqrt (haversine_a lat1 lon1 lat2 lon2),
          Math_sqrt (1 - haversine_a lat1 lon1 lat2 lon2) with
    | Some sa, Some sb => Some (6371 * (2 * Math_atan2 sa sb))
    | _, _ => None
    end.
Proof. reflexivity. Qed.

End Geodesy.

(** ** Symmetry of the haversine distance on binary64 numbers *)

Section HaversineBinary64.

Import APIClient64 Binary64.

Local Open Scope float_scope.

Variable Math : MathObject.

(** The platform's sine is odd, as the usual implementations are. *)
Hypothesis sin_odd : forall x, Math.(Math_sin) (- x) = - Math.(Math_sin) x.

(** Half the angle between two swapped coordinates: the same, or its
    opposite. *)
Lemma half_angle_swap (x y : float) :
  toRadians Math (y - x) / 2 = - (toRadians Math (x - y) / 2)
  \/ toRadians Math (y - x) / 2 = toRadians Math (x - y) / 2.
Proof.
  unfold toRadians.
  destruct (sub_swap x y) as [-> | ->]; [left | right; reflexivity].
  rewrite mul_opp_l, div_opp_l. reflexivity.
Qed.

(** X6.  On binary64 numbers, with an odd sine, the two distances are the
    same number, bit for bit (or both NaN): the floating-point reading of
    the symmetry needs no tolerance. *)
Theorem haversine_binary64_symmetric (lat1 lon1 lat2 lon2 : float) :
  haversineDistance Math lat1 lon1 lat2 lon2 =
  haversineDistance Math lat2 lon2 lat1 lon1.
Proof.
  unfold haversineDistance; cbv zeta.
  rewrite (mul_comm (Math_cos Math (toRadians Math lat2))
                    (Math_cos Math (toRadians Math lat1))).
  destruct (half_angle_swap lat2 lat1) as [-> | ->];
    destruct (half_angle_swap lon2 lon1) as [-> | ->];
    rewrite ?sin_odd, ?mul_opp_opp, ?mul_opp_opp_r; reflexivity.
Qed.

End HaversineBinary64.

(** ** The running minimum on binary64 numbers

    [Math.min] lets a NaN through, so the scan is the minimum of the
    distances when none of them is NaN, and NaN as soon as one is. *)

Section ScanBinary64.

Import APIClient64 Binary64.

Local Open Scope float_scope.

Variable Math : MathObject.
Variables lat lon : float.

Local Abbreviation dist pt :=
  (haversineDistance Math lat lon pt.(APIClient64.lat)
                     pt.(APIClient64.lon)).

Lemma Math_min_spec (a b : float) :
  if PrimFloat.is_nan a || PrimFloat.is_nan b
  then Math_min a b = nan
  else (Math_min a b = a \/ Math_min a b = b)
       /\ (Math_min a b <=? a) = true /\ (Math_min a b <=? b) = true.
Proof.
  unfold Math_min.
  destruct (position_of a b) as [N A B C D | Na Nb A B C D | Na Nb A B C D
                                 | Na Nb A B C D];
    rewrite ?N, ?Na, ?Nb; cbn [orb]; [reflexivity | | | ];
    rewrite ?A, ?C;
    pose proof (leb_refl a Na) as Ha; pose proof (leb_refl b Nb) as Hb;
    try destruct (get_sign b); repeat split; auto.
Qed.

Lemma scan_nan_start (pts : list Coordinate) :
  scan Math lat lon nan pts = nan.
Proof. induction pts as [|pt pts IH]; [reflexivity | exact IH]. Qed.

Lemma scan_nan (pts : list Coordinate) (m : float) :
  (exists pt, In pt pts /\ PrimFloat.is_nan (dist pt) = true) ->
  scan Math lat lon m pts = nan.
Proof.
  revert m. induction pts as [|pt pts IH]; intros m (q & Hin & Hq).
  - destruct Hin.
  - simpl. destruct Hin as [<- | Hin].
    + pose proof (Math_min_spec m (dist pt)) as H.
      rewrite Hq, orb_true_r in H. unfold scan. simpl. rewrite H.
      apply scan_nan_start.
    + apply IH. exists q. split; assumption.
Qed.

Lemma scan_min (pts : list Coordinate) (m : float) :
  PrimFloat.is_nan m = false ->
  (forall pt, In pt pts -> PrimFloat.is_nan (dist pt) = false) ->
  PrimFloat.is_nan (scan Math lat lon m pts) = false
  /\ (scan Math lat lon m pts = m
      \/ exists pt, In pt pts /\ scan Math lat lon m pts = dist pt)
  /\ (scan Math lat lon m pts <=? m) = true
  /\ (forall pt, In pt pts ->
        (scan Math lat lon m pts <=? dist pt) = true).
Proof.
  revert m. induction pts as [|pt pts IH]; intros m Hm Hpts.
  - simpl. split; [exact Hm|]. split; [left; reflexivity|].
    split; [apply leb_refl, Hm | intros pt []].
  - pose proof (Math_min_spec m (dist pt)) as H.
    rewrite Hm, (Hpts pt (or_introl eq_refl)) in H. cbn [orb] in H.
    destruct H as (Hsel & Hle_m & Hle_pt).
    assert (Hn : PrimFloat.is_nan (Math_min m (dist pt)) = false).
    { destruct Hsel as [-> | ->]; [exact Hm|].
      apply Hpts. left. reflexivity. }
    destruct (IH (Math_min m (dist pt)) Hn
                 (fun q Hq => Hpts q (or_intror Hq)))
      as (Hr & Hin & Hle & Hall).
    change (scan Math lat lon m (pt :: pts))
      with (scan Math lat lon (Math_min m (dist pt)) pts).
    split; [exact Hr|]. split; [|split].
    + destruct Hin as [-> | (q & Hq & ->)].
      * destruct Hsel as [-> | ->]; [left; reflexivity|].
        right. exists pt. split; [left|]; reflexivity.
      * right. exists q. split; [right; exact Hq | reflexivity].
    + eapply leb_trans; eassumption.
    + intros q [<- | Hq]; [|apply Hall, Hq].
      eapply leb_trans; eassumption.
Qed.

(** X7.  The scan from Infinity over a non-empty list of reference points: NaN
    when the distance to some point is NaN, and otherwise the distance to
    one of the points, below or equal to the distance to every point. *)
Theorem scan_binary64 (pts : list Coordinate) :
  pts <> [] ->
  if existsb (fun pt => PrimFloat.is_nan (dist pt)) pts
  then scan Math lat lon infinity pts = nan
  else (exists pt, In pt pts /\ scan Math lat lon infinity pts = dist pt)
       /\ (forall pt, In pt pts ->
             (scan Math lat lon infinity pts <=? dist pt) = true).
Proof.
  intros Hpts.
  destruct (existsb _ pts) eqn:E.
  - apply existsb_exists in E. apply scan_nan. exact E.
  - assert (Hall : forall pt, In pt pts ->
                       PrimFloat.is_nan (dist pt) = false).
    { intros pt Hpt.
      destruct (PrimFloat.is_nan (dist pt)) eqn:N; [|reflexivity].
      rewrite <- E. symmetry. apply existsb_exists.
      exists pt. split; assumption. }
    destruct (scan_min pts infinity eq_refl Hall) as (_ & Hin & _ & Hle).
    split; [|exact Hle].
    destruct Hin as [Hinf | Hin]; [|exact Hin].
    destruct pts as [|pt pts]; [congruence|].
    exists pt. split; [left; reflexivity|].
    rewrite Hinf. symmetry. apply infinity_le.
    rewrite <- Hinf. apply Hle. left; reflexivity.
Qed.

End ScanBinary64.

(** ** The distance from a point to itself *)

Section HaversineRange.

Import APIClient Geodesy.

Local Open Scope R_scope.

(** X9.  The distance from a point to itself is 0. *)
Theorem haversine_same_point (lat lon : R) :
  haversineDistance lat lon lat lon = Some 0.
Proof.
  rewrite haversineDistance_a.
  assert (Ha : haversine_a lat lon lat lon = 0).
  { unfold haversine_a, toRadians; cbv zeta.
    replace ((lat - lat) * (PI / 180) / 2) with 0 by field.
    replace ((lon - lon) * (PI / 180) / 2) with 0 by field.
    rewrite sin_0. ring. }
  rewrite Ha. unfold Math_sqrt.
  destruct (Rlt_dec 0 0) as [H|_]; [lra|].
  destruct (Rlt_dec (1 - 0) 0) as [H|_]; [lra|].
  f_equal. unfold Math_atan2.
  replace (1 - 0) with 1 by ring. rewrite sqrt_0, sqrt_1.
  destruct (Rlt_dec 0 1) as [_|H]; [|lra].
  unfold Rdiv. rewrite Rmult_0_l, atan_0. ring.
Qed.

End HaversineRange.

(** ** The distance from a point to itself, on binary64 numbers *)

Section SamePointBinary64.

Import APIClient64 Binary64.

Local Open Scope float_scope.

Variable Math : MathObject.

(** What the proof uses of [Math]: the value of [Math.PI] and four values
    of its functions at 0 and 1. *)
Hypothesis PI_value : Math.(Math_PI) = 3.141592653589793.
Hypothesis sin_zero : Math.(Math_sin) 0 = 0.
Hypothesis sqrt_zero : Math.(Math_sqrt) 0 = 0.
Hypothesis sqrt_one : Math.(Math_sqrt) 1 = 1.
Hypothesis atan2_zero : Math.(Math_atan2) 0 1 = 0.

(** X27.  On binary64 numbers too, the distance from a point with finite
    coordinates to itself is +0: the differences of the coordinates are
    +0, their sines are +0, and the cosine of the latitude, of magnitude at
    most 1, has a finite square, so [a] is +0 and the angle is +0. *)
Theorem haversine_same_point_binary64 (lat lon : float) :
  PrimFloat.is_finite lat = true ->
  PrimFloat.is_finite lon = true ->
  (PrimFloat.abs (Math.(Math_cos) (toRadians Math lat)) <=? 1) = true ->
  haversineDistance Math lat lon lat lon = 0.
Proof.
  intros Hlat Hlon Hcos. unfold haversineDistance. cbv zeta.
  rewrite (sub_diag lat Hlat), (sub_diag lon Hlon).
  assert (Hz : toRadians Math 0 / 2 = 0).
  { unfold toRadians. rewrite PI_value. reflexivity. }
  rewrite Hz, sin_zero, (square_times_zero _ Hcos).
  change (0 * 0 + 0 * 0) with 0.
  rewrite sqrt_zero.
  change (1 - 0) with 1.
  rewrite sqrt_one, atan2_zero. reflexivity.
Qed.

End SamePointBinary64.

(** ** The cache *)

Section Cache.

Import APIClient Geodesy.

Local Open Scope R_scope.

Lemma setItem_same (st : Storage) (key : R * R) (it : Item) :
  setItem st key it (fst key) (snd key) = Some it.
Proof.
  unfold setItem. destruct key as [la lo]. cbn [fst snd].
  destruct (key_eq_dec (la, lo) (la, lo)) as [_|N];
    [reflexivity | exfalso; apply N; reflexivity].
Qed.

Lemma removeItem_same (st : Storage) (key : R * R) :
  removeItem st key (fst key) (snd key) = None.
Proof.
  unfold removeItem. destruct key as [la lo]. cbn [fst snd].
  destruct (key_eq_dec (la, lo) (la, lo)) as [_|N];
    [reflexivity | exfalso; apply N; reflexivity].
Qed.

Lemma getFromCache_saved (w w' : World) (st : Storage) (key : R * R)
      (v : number) :
  w.(setItem_ok) = true -> w'.(getItem_ok) = true ->
  getFromCache w' (saveToCache w st key v) key =
    if (w'.(now_read) - w.(now_write) <? 86400000)%Z
    then (JSON_number v, saveToCache w st key v)
    else if w'.(removeItem_ok)
         then (None, removeItem (saveToCache w st key v) key)
         else (None, saveToCache w st key v).
Proof.
  intros Hset Hget. unfold getFromCache at 1.
  rewrite Hget. cbn [negb]. unfold saveToCache at 1.
  rewrite Hset, setItem_same. cbn [value_ timestamp]. reflexivity.
Qed.

(** X11.  What [getFromCache] returns is never older than 24 hours: a value
    comes from an item stored under the key whose age, at the time of the
    lookup, is below 86400000 ms, and such a lookup leaves the storage as
    it is. *)
Theorem cache_hit_is_fresh (w : World) (st : Storage) (key : R * R)
        (v : R) :
  fst (getFromCache w st key) = Some v ->
  exists item,
    st (fst key) (snd key) = Some item
    /\ item.(value_) = Some v
    /\ (w.(now_read) - item.(timestamp) < 86400000)%Z
    /\ snd (getFromCache w st key) = st.
Proof.
  unfold getFromCache.
  destruct (getItem_ok w); simpl; [|discriminate].
  destruct (st (fst key) (snd key)) as [item|]; [|discriminate].
  destruct (now_read w - timestamp item <? CACHE_DURATION)%Z eqn:E.
  - simpl. intros Hv. exists item. apply Z.ltb_lt in E.
    repeat split; [exact Hv | exact E].
  - destruct (removeItem_ok w); discriminate.
Qed.

(** X12.  Round trip of the cache: a value saved under a key is read back
    under that key while its age is below 86400000 ms, a number as it was
    saved, NaN and Infinity as [null] (a miss for the callers); from that
    age on the lookup returns [null] and removes the item. *)
Theorem cache_round_trip (w w' : World) (st : Storage) (key : R * R)
        (v : number) :
  w.(setItem_ok) = true -> w'.(getItem_ok) = true ->
  fst (getFromCache w' (saveToCache w st key v) key) =
    (if (w'.(now_read) - w.(now_write) <? 86400000)%Z
     then JSON_number v else None)
  /\ ((86400000 <= w'.(now_read) - w.(now_write))%Z ->
      w'.(removeItem_ok) = true ->
      snd (getFromCache w' (saveToCache w st key v) key)
          (fst key) (snd key) = None).
Proof.
  intros Hset Hget. rewrite getFromCache_saved by assumption.
  destruct (now_read w' - now_write w <? 86400000)%Z eqn:E.
  - split; [reflexivity|]. apply Z.ltb_lt in E. lia.
  - split; [destruct (removeItem_ok w'); reflexivity|].
    intros _ ->. apply removeItem_same.
Qed.

End Cache.

(** ** The instrumented loop on binary64 numbers

    A comparison with NaN is false, so the loop of the instrumented copy
    steps over a distance that is NaN where [Math.min] lets it through. *)

Section InstrumentedScanBinary64.

Import APIClient64 Binary64.

Local Open Scope float_scope.

Variable Math : MathObject.
Variables lat lon : float.

Local Abbreviation dist pt :=
  (haversineDistance Math lat lon pt.(APIClient64.lat)
                     pt.(APIClient64.lon)).

Local Abbreviation step := (APIClientInstrumented64.step Math lat lon).

Lemma instrumented_step64 (m : float) (cp : option Coordinate)
      (pt : Coordinate) :
  step (m, cp) pt = if dist pt <? m then (dist pt, Some pt) else (m, cp).
Proof. reflexivity. Qed.

Lemma instrumented_scan64_from (pts : list Coordinate) (m : float)
      (cp : option Coordinate) :
  PrimFloat.is_nan m = false ->
  let r := fold_left step pts (m, cp) in
  PrimFloat.is_nan (fst r) = false
  /\ (fst r <=? m) = true
  /\ (forall pt, In pt pts -> PrimFloat.is_nan (dist pt) = false ->
        (fst r <=? dist pt) = true)
  /\ (r = (m, cp) /\ (forall pt, In pt pts -> (dist pt <? m) = false)
      \/ exists pt, In pt pts /\ snd r = Some pt /\ fst r = dist pt).
Proof.
  cbv zeta. revert m cp. induction pts as [|pt pts IH]; intros m cp Hm.
  - simpl. split; [exact Hm|]. split; [apply leb_refl, Hm|].
    split; [intros pt []|]. left. split; [reflexivity | intros pt []].
  - cbn [fold_left]. rewrite instrumented_step64.
    destruct (dist pt <? m) eqn:Hlt.
    + pose proof (ltb_not_nan _ _ Hlt) as Hd.
      destruct (IH (dist pt) (Some pt) Hd) as (Hn & Hle & Hall & Hcp).
      split; [exact Hn|]. split; [|split].
      * eapply leb_trans; [exact Hle | apply ltb_leb, Hlt].
      * intros q [<- | Hq] Hq'; [exact Hle | apply Hall; assumption].
      * right. destruct Hcp as [[-> _] | (q & Hq & Hs & Hf)].
        -- exists pt. split; [left; reflexivity|]. split; reflexivity.
        -- exists q. split; [right; exact Hq | split; assumption].
    + destruct (IH m cp Hm) as (Hn & Hle & Hall & Hcp).
      split; [exact Hn|]. split; [exact Hle|]. split.
      * intros q [<- | Hq] Hq'; [|apply Hall; assumption].
        eapply leb_trans; [exact Hle|]. apply not_ltb_leb; assumption.
      * destruct Hcp as [[-> Hnone] | (q & Hq & Hs & Hf)].
        -- left. split; [reflexivity|]. intros q [<- | Hq]; auto.
        -- right. exists q. split; [right; exact Hq | split; assumption].
Qed.

Lemma instrumented_scan64_below (pts : list Coordinate) (m : float)
      (cp : option Coordinate) :
  let r := fold_left step pts (m, cp) in
  r = (m, cp) \/ (fst r <? m) = true.
Proof.
  cbv zeta. revert m cp. induction pts as [|pt pts IH]; intros m cp.
  - left. reflexivity.
  - cbn [fold_left]. rewrite instrumented_step64.
    destruct (dist pt <? m) eqn:Hlt; [|apply IH].
    right. destruct (IH (dist pt) (Some pt)) as [-> | Hbelow];
      [exact Hlt|].
    apply (ltb_widen _ (dist pt) m); [exact Hbelow | apply ltb_leb, Hlt].
Qed.

(** X15.  On binary64 numbers the loop of the instrumented copy never ends
    with NaN: its [minDistance] is below or equal to every distance that
    is a number; when [closestPoint] is a point, it is a reference point,
    [minDistance] is the distance to it and that distance is below
    Infinity; and [closestPoint] is [null] (with [minDistance] still
    Infinity) exactly when no distance is below Infinity. *)
Theorem instrumented_scan_binary64 (pts : list Coordinate) :
  let r := APIClientInstrumented64.scan Math lat lon pts in
  PrimFloat.is_nan (fst r) = false
  /\ (forall pt, In pt pts -> PrimFloat.is_nan (dist pt) = false ->
        (fst r <=? dist pt) = true)
  /\ match snd r with
     | Some pt => In pt pts /\ fst r = dist pt
                  /\ (dist pt <? infinity) = true
     | None => fst r = infinity
               /\ forall pt, In pt pts -> (dist pt <? infinity) = false
     end
  /\ (snd r = None <->
      forall pt, In pt pts -> (dist pt <? infinity) = false).
Proof.
  cbv zeta. unfold APIClientInstrumented64.scan.
  destruct (instrumented_scan64_from pts infinity None eq_refl)
    as (Hn & _ & Hall & Hcp).
  pose proof (instrumented_scan64_below pts infinity None) as Hbelow.
  cbv zeta in Hbelow.
  split; [exact Hn|]. split; [exact Hall|].
  destruct Hcp as [[E Hnone] | (q & Hq & Hs & Hf)].
  - rewrite E. cbn [fst snd].
    split; [split; [reflexivity | exact Hnone]|].
    split; [intros _; exact Hnone | reflexivity].
  - rewrite Hs.
    assert (Hlt : (dist q <? infinity) = true).
    { destruct Hbelow as [E | Hlt]; [rewrite E in Hs; discriminate Hs|].
      rewrite <- Hf. exact Hlt. }
    split; [split; [exact Hq | split; [exact Hf | exact Hlt]]|].
    split; [discriminate|].
    intros Hnone. rewrite (Hnone q Hq) in Hlt. discriminate Hlt.
Qed.

(** X16.  The two copies of the loop on binary64 numbers: when the distance
    to some reference point is NaN the first copy ends with NaN and the
    instrumented one with a number; when none is, they end with equal
    numbers. *)
Theorem copies_agree_binary64 (pts : list Coordinate) :
  if existsb (fun pt => PrimFloat.is_nan (dist pt)) pts
  then APIClient64.scan Math lat lon infinity pts = nan
       /\ PrimFloat.is_nan
            (fst (APIClientInstrumented64.scan Math lat lon pts)) = false
  else (fst (APIClientInstrumented64.scan Math lat lon pts)
        =? APIClient64.scan Math lat lon infinity pts) = true.
Proof.
  unfold APIClientInstrumented64.scan.
  destruct (instrumented_scan64_from pts infinity None eq_refl)
    as (Hn & Hinf & Hall & Hcp).
  destruct (existsb _ pts) eqn:E.
  - split; [|exact Hn].
    apply existsb_exists in E. apply scan_nan. exact E.
  - assert (Hnum : forall pt, In pt pts ->
                       PrimFloat.is_nan (dist pt) = false).
    { intros pt Hpt.
      destruct (PrimFloat.is_nan (dist pt)) eqn:N; [|reflexivity].
      rewrite <- E. symmetry. apply existsb_exists.
      exists pt. split; assumption. }
    destruct (scan_min Math lat lon pts infinity eq_refl Hnum)
      as (_ & Hin & Hle_inf & Hle).
    apply leb_antisym_eqb.
    + destruct Hin as [-> | (q & Hq & ->)]; [exact Hinf|].
      apply Hall; [exact Hq | apply Hnum, Hq].
    + destruct Hcp as [[-> _] | (q & Hq & _ & ->)]; [exact Hle_inf|].
      apply Hle, Hq.
Qed.

End InstrumentedScanBinary64.

(** ** Requests with retries *)

Section Retries.

Import Requests.

Local Open Scope Z_scope.

Variable Data : Type.
Variable fetch : nat -> attempt_result Data.

(** The sleep that follows a failed attempt. *)
Local Abbreviation backoff :=
  (fun attempt : nat => 1000 * 2 ^ Z.of_nat attempt).

Lemma attempts_succeed (retries n a k : nat) (d : Data) :
  (a + n = retries)%nat -> (a <= k < retries)%nat ->
  (forall i, (a <= i < k)%nat -> exists e, fetch i = Fails e) ->
  fetch k = Body d ->
  let r := attempts Data fetch retries (seq a n) in
  snd r = Return d
  /\ requests (fst r) = seq a (S k - a)
  /\ sleeps (fst r) = map backoff (seq a (k - a)).
Proof.
  cbv zeta. revert a. induction n as [|n IH]; intros a Hn Hk Hfail Hok; [lia|].
  cbn [seq attempts].
  destruct (Nat.eq_dec a k) as [->|Hak].
  - rewrite Hok. replace (S k - k)%nat with 1%nat by lia.
    replace (k - k)%nat with 0%nat by lia. repeat split; reflexivity.
  - destruct (Hfail a ltac:(lia)) as [e ->].
    destruct (Nat.eqb_spec a (retries - 1)) as [E|_]; [lia|].
    destruct (IH (S a) ltac:(lia) ltac:(lia)
                 (fun i Hi => Hfail i ltac:(lia)) Hok) as (Hc & Hr & Hs).
    destruct (attempts Data fetch retries (seq (S a) n)) as [events c].
    cbn [fst snd] in *. split; [exact Hc|].
    cbn [requests sleeps flat_map app]. fold (requests events).
    fold (sleeps events). rewrite Hr, Hs.
    replace (S k - a)%nat with (S (S k - S a)) by lia.
    replace (k - a)%nat with (S (k - S a)) by lia.
    split; reflexivity.
Qed.

Lemma attempts_give_up (retries n a : nat) :
  (a + n = retries)%nat -> (0 < n)%nat ->
  (forall i, (a <= i < retries)%nat -> exists e, fetch i = Fails e) ->
  let r := attempts Data fetch retries (seq a n) in
  (exists e, fetch (retries - 1) = Fails e /\ snd r = Throw e)
  /\ requests (fst r) = seq a n
  /\ sleeps (fst r) = map backoff (seq a (n - 1)).
Proof.
  cbv zeta. revert a. induction n as [|n IH]; intros a Hn Hpos Hfail; [lia|].
  cbn [seq attempts].
  destruct (Hfail a ltac:(lia)) as [e He]. rewrite He.
  destruct (Nat.eqb_spec a (retries - 1)) as [E|E].
  - assert (n = 0)%nat as -> by lia. cbn.
    split; [|split; reflexivity]. exists e. rewrite <- E. auto.
  - destruct (IH (S a) ltac:(lia) ltac:(lia)
                 (fun i Hi => Hfail i ltac:(lia))) as (Hc & Hr & Hs).
    destruct (attempts Data fetch retries (seq (S a) n)) as [events c].
    cbn [fst snd] in *. split; [exact Hc|].
    cbn [requests sleeps flat_map app]. fold (requests events).
    fold (sleeps events). rewrite Hr, Hs.
    replace (S n - 1)%nat with (S (n - 1)) by lia.
    split; reflexivity.
Qed.

Lemma backoff_total (n : nat) :
  fold_right Z.add 0 (map backoff (seq 0 n)) = 1000 * (2 ^ Z.of_nat n - 1).
Proof.
  induction n as [|n IH]; [reflexivity|].
  rewrite seq_S, map_app, fold_right_app. cbn [map fold_right Nat.add].
  assert (G : forall l z, fold_right Z.add z l = fold_right Z.add 0 l + z).
  { induction l as [|x l IHl]; intros z; cbn [fold_right]; [lia|].
    rewrite IHl. lia. }
  rewrite G, IH, Nat2Z.inj_succ, Z.pow_succ_r by lia. lia.
Qed.

(** X17.  When the attempt numbered [k] is the first to succeed, with [k]
    below [retries], [fetchWithRetry] returns its body after exactly
    [k + 1] requests, having slept 1000 * 2^i ms after each failed attempt
    [i]. *)
Theorem fetchWithRetry_first_success (retries k : nat) (d : Data) :
  (k < retries)%nat ->
  (forall i, (i < k)%nat -> exists e, fetch i = Fails e) ->
  fetch k = Body d ->
  snd (fetchWithRetry Data fetch retries) = Return d
  /\ requests (fst (fetchWithRetry Data fetch retries)) = seq 0 (S k)
  /\ sleeps (fst (fetchWithRetry Data fetch retries)) =
     map backoff (seq 0 k).
Proof.
  intros Hk Hfail Hok. unfold fetchWithRetry.
  pose proof (attempts_succeed retries retries 0 k d eq_refl
                ltac:(lia) (fun i Hi => Hfail i ltac:(lia)) Hok) as H.
  cbv zeta in H. rewrite !Nat.sub_0_r in H. exact H.
Qed.

(** X18.  When every attempt fails, [fetchWithRetry] throws the error of the
    last one after exactly [retries] requests; it sleeps after each failed
    attempt but the last, 1000 * (2^(retries-1) - 1) ms in all. *)
Theorem fetchWithRetry_gives_up (retries : nat) :
  (0 < retries)%nat ->
  (forall i, (i < retries)%nat -> exists e, fetch i = Fails e) ->
  (exists e, fetch (retries - 1) = Fails e
             /\ snd (fetchWithRetry Data fetch retries) = Throw e)
  /\ requests (fst (fetchWithRetry Data fetch retries)) = seq 0 retries
  /\ sleeps (fst (fetchWithRetry Data fetch retries)) =
     map backoff (seq 0 (retries - 1))
  /\ fold_right Z.add 0 (sleeps (fst (fetchWithRetry Data fetch retries))) =
     1000 * (2 ^ Z.of_nat (retries - 1) - 1).
Proof.
  intros Hpos Hfail. unfold fetchWithRetry.
  destruct (attempts_give_up retries retries 0 eq_refl Hpos
              (fun i Hi => Hfail i ltac:(lia))) as (Hc & Hr & Hs).
  split; [exact Hc|]. split; [exact Hr|]. split; [exact Hs|].
  rewrite Hs. apply backoff_total.
Qed.

Lemma attempts_bounded (retries n a : nat) :
  (a + n = retries)%nat ->
  let r := attempts Data fetch retries (seq a n) in
  (exists k, (k <= n)%nat /\ requests (fst r) = seq a k)
  /\ (snd r = ReturnUndefined -> n = 0%nat).
Proof.
  cbv zeta. revert a. induction n as [|n IH]; intros a Hn.
  - cbn. split; [exists 0%nat; split; [lia | reflexivity] | reflexivity].
  - cbn [seq attempts].
    destruct (fetch a) as [d|e].
    + split; [exists 1%nat; split; [lia | reflexivity] | discriminate].
    + destruct (Nat.eqb_spec a (retries - 1)) as [E|E].
      * split; [exists 1%nat; split; [lia | reflexivity] | discriminate].
      * destruct (IH (S a) ltac:(lia)) as ((k & Hk & Hr) & Hu).
        destruct (attempts Data fetch retries (seq (S a) n)) as [events c].
        cbn [fst snd] in *. split.
        -- exists (S k). split; [lia|].
           cbn [requests flat_map app]. fold (requests events).
           rewrite Hr. reflexivity.
        -- intros Hc. specialize (Hu Hc). lia.
Qed.

(** X19.  Whatever the network does, [fetchWithRetry] makes at most
    [retries] requests, numbered from 0 in order; and it falls off the end
    of its loop, resolving with [undefined] rather than data or an error,
    exactly when [retries] is 0. *)
Theorem fetchWithRetry_bounded (retries : nat) :
  (exists k, (k <= retries)%nat
             /\ requests (fst (fetchWithRetry Data fetch retries)) = seq 0 k)
  /\ (snd (fetchWithRetry Data fetch retries) = ReturnUndefined
      <-> retries = 0%nat).
Proof.
  unfold fetchWithRetry.
  destruct (attempts_bounded retries retries 0 eq_refl) as [Hk Hu].
  split; [exact Hk|]. split; [exact Hu|].
  intros ->. reflexivity.
Qed.

End Retries.

(** ** Annual precipitation *)

Section Precipitation.

Import Requests APIClientData.

Local Open Scope string_scope.
Local Open Scope float_scope.

Variable js : Builtins.
Variable w : APIClient.World.
Variable fetch : nat -> attempt_result Daily.
Variable st : Storage.
Variables lat lon : float.

Local Abbreviation cacheKey :=
  ("precipitation_" ++ Number_toString js lat
   ++ "_" ++ Number_toString js lon).

Local Abbreviation call := (getAnnualPrecipitation js w fetch st lat lon).

Lemma total_of_nulls (days : list (option float)) :
  (forall v, In v days -> v = None) -> total days = 0.
Proof.
  unfold total. intros Hdays.
  induction days as [|v days IH]; [reflexivity|].
  cbn [fold_left]. rewrite (Hdays v (or_introl eq_refl)).
  apply IH. intros v' Hv'. apply Hdays. right. exact Hv'.
Qed.

(** X20.  When the value is not in the cache and the three attempts to
    fetch it fail, [getAnnualPrecipitation] does not throw: after three
    requests and sleeps of 1000 and 2000 ms it returns 500 and saves
    nothing, so that the next call asks again; and with 500 mm the
    classification is never Paalai. *)
Theorem precipitation_unavailable :
  fst (getFromCache w st cacheKey) = None ->
  (forall i, (i < 3)%nat -> exists e, fetch i = Fails e) ->
  fst (fst call) = 500
  /\ snd (fst call) = snd (getFromCache w st cacheKey)
  /\ requests (snd call) = [0; 1; 2]%nat
  /\ sleeps (snd call) = [1000; 2000]%Z
  /\ forall e c,
       Console.result
         (TerrainAnalyzer.applyClassificationRules js e c (fst (fst call)))
       <> "Paalai".
Proof.
  intros Hmiss Hfail. unfold getAnnualPrecipitation, fetchWithRetry.
  destruct (getFromCache w st cacheKey) as [cached st1].
  cbn [fst snd] in *. subst cached.
  destruct (attempts_give_up Daily fetch 3 3 0 eq_refl ltac:(lia)
              (fun i Hi => Hfail i ltac:(lia)))
    as ((e & _ & Hthrow) & Hr & Hs).
  change MAX_RETRIES with 3%nat.
  destruct (attempts Daily fetch 3 (seq 0 3)) as [events c].
  cbn [fst snd] in *. subst c. cbn [fst snd].
  repeat split; try assumption.
  intros e' c' H. apply paalai_below in H. discriminate H.
Qed.

(** X21.  Days without a value count for nothing in the sum: when the
    archive answers with [null] for every day, [getAnnualPrecipitation]
    returns 0 after a single request, and with 0 mm a place beyond the
    coastal cutoff and below 1000 m is classified Paalai. *)
Theorem precipitation_missing_days (days : list (option float)) :
  fst (getFromCache w st cacheKey) = None ->
  fetch 0%nat = Body (Some days) ->
  (forall v, In v days -> v = None) ->
  fst (fst call) = 0
  /\ requests (snd call) = [0%nat]
  /\ sleeps (snd call) = []
  /\ forall e c,
       JsNum.gt c 50 = true -> JsNum.lt e 1000 = true ->
       Console.result
         (TerrainAnalyzer.applyClassificationRules js e c (fst (fst call)))
       = "Paalai".
Proof.
  intros Hmiss Hbody Hdays. unfold getAnnualPrecipitation, fetchWithRetry.
  destruct (getFromCache w st cacheKey) as [cached st1].
  cbn [fst snd] in *. subst cached.
  change MAX_RETRIES with 3%nat. cbn [seq attempts]. rewrite Hbody.
  cbn [fst snd requests sleeps flat_map app].
  rewrite (total_of_nulls days Hdays).
  repeat split.
  intros e c Hc He. apply paalai_reached; [exact Hc | exact He | reflexivity].
Qed.

End Precipitation.

(** ** The reference points *)

Section ReferencePointsList.

Import APIClient64 ReferencePoints.

Local Open Scope float_scope.

Lemma for_le_enough (f f' : nat) (x to step : float)
      (body body' : float -> option (list Coordinate))
      (l : list Coordinate) :
  (f <= f')%nat ->
  (forall y pushed, body y = Some pushed -> body' y = Some pushed) ->
  for_le f x to step body = Some l ->
  for_le f' x to step body' = Some l.
Proof.
  intros Hf Hbody. revert f' x l Hf.
  induction f as [|f IH]; intros f' x l Hf.
  - destruct f'; cbn [for_le]; destruct (x <=? to);
      solve [discriminate | trivial].
  - destruct f' as [|f']; [lia|]. cbn [for_le].
    destruct (x <=? to); [|trivial].
    destruct (body x) as [pushed|] eqn:Hb; [|discriminate].
    rewrite (Hbody x pushed Hb).
    destruct (for_le f (x + step) to step body) as [rest|] eqn:Hr;
      [|discriminate].
    rewrite (IH f' (x + step) rest ltac:(lia) Hr). trivial.
Qed.

Lemma statements_enough (blocks blocks' : list (option (list Coordinate)))
      (l : list Coordinate) :
  Forall2 (fun b b' => forall pushed, b = Some pushed -> b' = Some pushed)
          blocks blocks' ->
  statements blocks = Some l -> statements blocks' = Some l.
Proof.
  intros H. revert l. induction H as [|b b' bs bs' Hb Hbs IH]; intros l.
  - trivial.
  - cbn [statements]. destruct b as [pushed|]; [|discriminate].
    rewrite (Hb pushed eq_refl).
    destruct (statements bs) as [rest|]; [|discriminate].
    rewrite (IH rest eq_refl). trivial.
Qed.

Lemma getCoastalReferencePoints_enough (Math : MathObject) (f f' : nat)
      (l : list Coordinate) :
  (f <= f')%nat ->
  getCoastalReferencePoints Math f = Some l ->
  getCoastalReferencePoints Math f' = Some l.
Proof.
  intros Hf. unfold getCoastalReferencePoints. apply statements_enough.
  repeat (constructor;
          [intros pushed;
           first [ exact (fun H => H)
                 | apply (for_le_enough f f'); [exact Hf|];
                   intros y pushed';
                   first [ exact (fun H => H)
                         | apply (for_le_enough f f'); [exact Hf|];
                           intros z pushed''; exact (fun H => H) ] ]
          |]).
  constructor.
Qed.

(** X22.  [getCoastalReferencePoints] ends, whatever [Math.sin] returns: no
    loop takes more than 73 rounds, and the list has 940 points, the 13
    cities first; every longitude in it is a number between -180 and
    180. *)
Theorem reference_points (Math : MathObject) (fuel : nat) :
  (73 <= fuel)%nat ->
  exists pts,
    getCoastalReferencePoints Math fuel = Some pts
    /\ List.length pts = 940%nat
    /\ firstn 13 pts = indianCoastalCities
    /\ forallb (fun pt => JsNum.ge pt.(lon) (-180) && JsNum.le pt.(lon) 180)
               pts = true.
Proof.
  intros Hfuel.
  destruct (getCoastalReferencePoints Math 73) as [pts|] eqn:E;
    [|vm_compute in E; discriminate E].
  exists pts. split; [exact (getCoastalReferencePoints_enough Math 73 fuel pts Hfuel E)|].
  vm_compute in E. injection E as <-.
  split; [reflexivity|]. split; [reflexivity|]. vm_compute. reflexivity.
Qed.

(** The first point of the west coast of India, (8, 68), is in the list. *)
Lemma reference_points_antipode (Math : MathObject) (fuel : nat) :
  (73 <= fuel)%nat ->
  exists pts,
    getCoastalReferencePoints Math fuel = Some pts
    /\ In (point 8 68) pts.
Proof.
  intros Hfuel.
  destruct (getCoastalReferencePoints Math 73) as [pts|] eqn:E;
    [|vm_compute in E; discriminate E].
  exists pts.
  split; [exact (getCoastalReferencePoints_enough Math 73 fuel pts Hfuel E)|].
  vm_compute in E. injection E as <-.
  do 13 right. left. reflexivity.
Qed.

End ReferencePointsList.

(** ** Rate limiting *)

Section RateLimit.

Import Geocoding.

Local Open Scope Z_scope.

Lemma enforceRateLimit_spacing (lastRequestTime : Z) (clock : Clock) :
  timely clock ->
  lastRequestTime + 1000 <= snd (enforceRateLimit lastRequestTime clock).
Proof.
  intros [Hnone Hsome]. unfold enforceRateLimit. cbv zeta. cbn [snd].
  change MIN_REQUEST_DELAY with 1000.
  destruct (now clock - lastRequestTime <? 1000) eqn:E.
  - specialize (Hsome (1000 - (now clock - lastRequestTime))). lia.
  - apply Z.ltb_ge in E. lia.
Qed.

(** X23.  Calls of [enforceRateLimit] made one after the other leave at
    least 1000 ms between the times they record in [lastRequestTime], as
    long as the clock does not go back and timers do not fire early; a
    call waits only if less than 1000 ms have passed, and then for what is
    missing. *)
Theorem rate_limit_spacing (lastRequestTime : Z) (clocks : list Clock) :
  Forall timely clocks ->
  spaced lastRequestTime (requestTimes lastRequestTime clocks)
  /\ forall clock ms,
       fst (enforceRateLimit lastRequestTime clock) = Some ms ->
       now clock < lastRequestTime + 1000
       /\ now clock + ms = lastRequestTime + 1000.
Proof.
  intros Hclocks. split.
  - revert lastRequestTime.
    induction Hclocks as [|clock clocks Hclock _ IH]; intros lastRequestTime.
    + exact I.
    + cbn [requestTimes spaced]. split.
      * apply enforceRateLimit_spacing, Hclock.
      * apply IH.
  - intros clock ms. unfold enforceRateLimit. cbv zeta. cbn [fst].
    change MIN_REQUEST_DELAY with 1000.
    destruct (now clock - lastRequestTime <? 1000) eqn:E; [|discriminate].
    apply Z.ltb_lt in E. intros H.
    assert (ms = 1000 - (now clock - lastRequestTime)) by congruence.
    lia.
Qed.

End RateLimit.

(** ** The history *)

Section History.

Import HistoryModule Binary64.

Local Open Scope float_scope.

(** A number that JSON writes as a number is zero or finite. *)
Lemma JSON_number_cases (x v : float) :
  APIClientData.JSON_number x = Some v ->
  (exists s, Prim2SF x = S754_zero s /\ v = 0)
  \/ (exists s m e, Prim2SF x = S754_finite s m e /\ v = x).
Proof.
  unfold APIClientData.JSON_number, PrimFloat.is_infinity.
  rewrite is_nan_spec, !FloatAxioms.eqb_spec, abs_spec.
  change (Prim2SF infinity) with (S754_infinity false).
  change (Prim2SF 0) with (S754_zero false).
  destruct (Prim2SF x) as [s|s| |s m e] eqn:E; cbn.
  - intros [= <-]. left. exists s. split; reflexivity.
  - discriminate.
  - discriminate.
  - unfold SFeqb. cbn. intros Hv. right. exists s, m, e.
    split; [reflexivity|]. destruct s; cbn in Hv; congruence.
Qed.

(** The difference with itself of a number that JSON writes as a number
    is within the tolerance. *)
Lemma same_coordinate (x v : float) :
  APIClientData.JSON_number x = Some v ->
  JsNum.gt (PrimFloat.abs (v - x)) 0.01 = false.
Proof.
  intros Hv. unfold JsNum.gt. rewrite ltb_spec, abs_spec, sub_spec.
  destruct (JSON_number_cases x v Hv) as [(s & E & ->) | (s & m & e & E & ->)];
    rewrite E.
  - change (Prim2SF 0) with (S754_zero false). destruct s; reflexivity.
  - unfold SF64sub, SFsub. cbv zeta. rewrite Z.sub_diag. reflexivity.
Qed.

Lemma filter_all {A : Type} (f : A -> bool) (l : list A) :
  (forall x, In x l -> f x = true) -> filter f l = l.
Proof.
  induction l as [|x l IH]; intros H; [reflexivity|].
  cbn [filter]. rewrite (H x (or_introl eq_refl)).
  f_equal. apply IH. intros y Hy. apply H. right. exact Hy.
Qed.

Lemma firstn_In {A : Type} (n : nat) (l : list A) (x : A) :
  In x (firstn n l) -> In x l.
Proof.
  intros H. rewrite <- (firstn_skipn n l). apply in_or_app. left. exact H.
Qed.

Lemma kept_elsewhere (lat lon : float) (n : nat) (history : list Entry)
      (h : Entry) :
  In h (firstn n (filter (elsewhere lat lon) history)) ->
  In h history /\ elsewhere lat lon h = true.
Proof.
  intros H. apply firstn_In, filter_In in H. exact H.
Qed.

Variable w : APIClient.World.
Variable st : Storage.
Variables locationName region icon color : string.
Variables lat lon : float.

Local Abbreviation entry :=
  {| HistoryModule.locationName := locationName;
     HistoryModule.region := region;
     HistoryModule.icon := icon;
     HistoryModule.color := color;
     HistoryModule.lat := APIClientData.JSON_number lat;
     HistoryModule.lon := APIClientData.JSON_number lon;
     HistoryModule.ts := w.(APIClient.now_write) |}.

Local Abbreviation kept :=
  (firstn 4 (filter (elsewhere lat lon) (load w st))).

Lemma history_saved_shape :
  w.(APIClient.setItem_ok) = true ->
  (save w st locationName region icon color lat lon = Some (entry :: kept)
   /\ (List.length kept <= 4)%nat)
  /\ forall h, In h kept ->
       In h (load w st) /\ elsewhere lat lon h = true.
Proof.
  intros Hset. unfold save. rewrite Hset. cbv zeta.
  change MAX_ITEMS with 5%nat. rewrite firstn_cons.
  split; [split; [reflexivity | apply firstn_le_length]|].
  intros h. apply kept_elsewhere.
Qed.

(** X25.  Saving a place again replaces its entry: when the coordinates are
    finite numbers, a second [save] for the same coordinates removes the
    entry the first one stored, puts its own first, and keeps the entries
    behind it as they were. *)
Theorem history_replaces (w' : APIClient.World)
        (locationName' region' icon' color' : string) (v_lat v_lon : float) :
  w.(APIClient.setItem_ok) = true ->
  w'.(APIClient.getItem_ok) = true -> w'.(APIClient.setItem_ok) = true ->
  APIClientData.JSON_number lat = Some v_lat ->
  APIClientData.JSON_number lon = Some v_lon ->
  save w' (save w st locationName region icon color lat lon)
       locationName' region' icon' color' lat lon =
    Some ({| HistoryModule.locationName := locationName';
             HistoryModule.region := region';
             HistoryModule.icon := icon';
             HistoryModule.color := color';
             HistoryModule.lat := Some v_lat;
             HistoryModule.lon := Some v_lon;
             HistoryModule.ts := w'.(APIClient.now_write) |} :: kept).
Proof.
  intros Hset Hget' Hset' Hlat Hlon.
  destruct (proj1 (history_saved_shape Hset)) as [Hsave Hlen].
  rewrite Hsave. set (rest := kept) in *.
  unfold save, load. rewrite Hget', Hset'. cbv zeta.
  cbn [filter]. unfold elsewhere at 1.
  cbn [HistoryModule.lat HistoryModule.lon].
  rewrite Hlat, Hlon. cbn [toNumber].
  rewrite (same_coordinate lat v_lat Hlat), (same_coordinate lon v_lon Hlon).
  cbn [orb].
  rewrite (filter_all (elsewhere lat lon) rest)
    by (intros h Hh; apply (kept_elsewhere lat lon 4 (load w st) h Hh)).
  change MAX_ITEMS with 5%nat. rewrite firstn_cons.
  rewrite (firstn_all2 rest) by exact Hlen. reflexivity.
Qed.

End History.

(** ** From the estimator to the classifier *)

Section Pipeline.

Import APIClient64 Binary64.

Local Open Scope float_scope.

Variable js : Builtins.
Variable Math : MathObject.
Variables lat lon : float.

(** X26.  One distance that is NaN is enough to lose the coast: when the
    haversine distance to some reference point is NaN, the [Math.min] loop
    of [getCoastDistance] ends with NaN, which the cache stores as [null]
    (so that every call computes it again), and with which the classifier
    never answers Neithal, whatever the elevation and the precipitation. *)
Theorem nan_distance_never_coastal (pts : list Coordinate) (e p : float) :
  (exists pt,
     In pt pts
     /\ PrimFloat.is_nan
          (haversineDistance Math lat lon pt.(APIClient64.lat)
                             pt.(APIClient64.lon)) = true) ->
  let coastDistance := scan Math lat lon infinity pts in
  PrimFloat.is_nan coastDistance = true
  /\ APIClientData.JSON_number coastDistance = None
  /\ Console.result
       (TerrainAnalyzer.applyClassificationRules js e coastDistance p)
     <> "Neithal".
Proof.
  intros Hnan. cbv zeta.
  rewrite (scan_nan Math lat lon pts infinity Hnan).
  split; [reflexivity|]. split; [reflexivity|].
  intros H. apply neithal_within in H.
  destruct (le_not_nan nan 75 H) as [N _]. discriminate N.
Qed.

End Pipeline.

(** ** The distance to an antipode

    What the platform's [Math] returns at the arguments met below is
    given as hypotheses: the value of [Math.PI], the correctly rounded
    sine and cosine, and NaN for [Math.sqrt] of a negative number and for
    [Math.atan2] of NaN. *)

Section Antipode.

Import APIClient64 Binary64.

Local Open Scope float_scope.

Variable js : Builtins.
Variable Math : MathObject.

Hypothesis PI_value : Math.(Math_PI) = 3.141592653589793.
Hypothesis sin_8 :
  Math.(Math_sin) 0.13962634015954636 = 0.13917310096006544.
Hypothesis sin_minus_8 :
  Math.(Math_sin) (-0.13962634015954636) = -0.13917310096006544.
Hypothesis sin_90 : Math.(Math_sin) 1.5707963267948966 = 1.
Hypothesis sin_minus_90 : Math.(Math_sin) (-1.5707963267948966) = -1.
Hypothesis cos_8 :
  Math.(Math_cos) 0.13962634015954636 = 0.9902680687415704.
Hypothesis cos_minus_8 :
  Math.(Math_cos) (-0.13962634015954636) = 0.9902680687415704.
Hypothesis sqrt_negative :
  forall x, (x <? 0) = true -> PrimFloat.is_nan (Math.(Math_sqrt) x) = true.
Hypothesis atan2_nan :
  forall y x, PrimFloat.is_nan x = true ->
              PrimFloat.is_nan (Math.(Math_atan2) y x) = true.

(** Evaluates the closed arguments of the functions of [Math]. *)
Ltac closed x :=
  lazymatch x with
  | context [Math] => fail
  | _ => idtac
  end.

Ltac arguments :=
  repeat match goal with
         | |- context [Math_sin Math ?x] =>
             closed x;
             let v := eval vm_compute in x in progress change x with v
         | |- context [Math_cos Math ?x] =>
             closed x;
             let v := eval vm_compute in x in progress change x with v
         | |- context [Math_sqrt Math ?x] =>
             closed x;
             let v := eval vm_compute in x in progress change x with v
         end.

Lemma haversine_antipode_there :
  haversineDistance Math (-8) (-112) 8 68 = nan.
Proof.
  unfold haversineDistance, toRadians; cbv zeta. rewrite PI_value.
  arguments. rewrite sin_8, sin_90, cos_8, cos_minus_8. arguments.
  assert (H : Math_sqrt Math (-2.220446049250313e-16) = nan)
    by (apply is_nan_eq, sqrt_negative; reflexivity).
  rewrite H.
  rewrite (is_nan_eq _ (atan2_nan (Math_sqrt Math 1.0000000000000002) nan
                                  eq_refl)).
  reflexivity.
Qed.

Lemma haversine_antipode_back :
  haversineDistance Math 8 68 (-8) (-112) = nan.
Proof.
  unfold haversineDistance, toRadians; cbv zeta. rewrite PI_value.
  arguments. rewrite sin_minus_8, sin_minus_90, cos_8, cos_minus_8.
  arguments.
  assert (H : Math_sqrt Math (-2.220446049250313e-16) = nan)
    by (apply is_nan_eq, sqrt_negative; reflexivity).
  rewrite H.
  rewrite (is_nan_eq _ (atan2_nan (Math_sqrt Math 1.0000000000000002) nan
                                  eq_refl)).
  reflexivity.
Qed.

(** C8.  The symmetry of the haversine distance fails where the distance
    is not a number.  From (-8, -112) to its antipode (8, 68), with the
    correctly rounded sine and cosine of 8 degrees, the constant [a] of
    the formula is 1.0000000000000002, [1 - a] is negative, and both
    directions return NaN: the two calls are not equal, within no
    tolerance.  (Where the distance is a number the two directions agree
    bit for bit: [haversine_binary64_symmetric].) *)
Theorem haversine_nan_at_antipode :
  PrimFloat.is_nan (haversineDistance Math (-8) (-112) 8 68) = true
  /\ PrimFloat.is_nan (haversineDistance Math 8 68 (-8) (-112)) = true
  /\ (haversineDistance Math (-8) (-112) 8 68
      =? haversineDistance Math 8 68 (-8) (-112)) = false.
Proof.
  rewrite haversine_antipode_there, haversine_antipode_back.
  repeat split; reflexivity.
Qed.

(** C5.  [getCoastDistance] does not return the minimum distance for
    every query: for (-8, -112), whose antipode (8, 68) is the first point
    of the west coast of India in the program's own list of reference
    points, the distance to that point is NaN, [Math.min] keeps it, and
    the call returns NaN; the loop of the instrumented copy, which
    compares with [<], ends with a number on the same list. *)
Theorem coast_distance_nan_at_antipode
        (fuel : nat) (w : APIClient.World) (st : APIClientData.Storage) :
  (73 <= fuel)%nat ->
  fst (APIClientData.getFromCache
         w st ("coast_" ++ Number_toString js (-8)
               ++ "_" ++ Number_toString js (-112))%string) = None ->
  exists pts,
    ReferencePoints.getCoastalReferencePoints Math fuel = Some pts
    /\ In (ReferencePoints.point 8 68) pts
    /\ PrimFloat.is_nan
         (fst (APIClientData.getCoastDistance js Math pts w st (-8) (-112)))
       = true
    /\ PrimFloat.is_nan
         (fst (APIClientInstrumented64.scan Math (-8) (-112) pts)) = false.
Proof.
  intros Hfuel Hmiss.
  destruct (reference_points_antipode Math fuel Hfuel) as (pts & Hpts & Hin).
  exists pts. split; [exact Hpts|]. split; [exact Hin|]. split.
  - unfold APIClientData.getCoastDistance.
    destruct (APIClientData.getFromCache w st _) as [cached st1].
    cbn [fst] in Hmiss. subst cached. cbn [fst].
    rewrite (scan_nan Math (-8) (-112) pts infinity); [reflexivity|].
    exists (ReferencePoints.point 8 68). split; [exact Hin|].
    cbn [ReferencePoints.point APIClient64.lat APIClient64.lon].
    rewrite haversine_antipode_there. reflexivity.
  - apply (instrumented_scan64_from Math (-8) (-112) pts infinity None
                                    eq_refl).
Qed.

End Antipode.

(** ** The cache in front of the coast distance *)

Section CoastCache.

Import APIClientData Binary64.

Local Open Scope string_scope.
Local Open Scope float_scope.

Variable js : Builtins.
Variable Math : APIClient64.MathObject.

Lemma setItem_here (st : Storage) (key : string) (it : Item) :
  setItem st key it key = Some it.
Proof. unfold setItem. rewrite String.eqb_refl. reflexivity. Qed.

Lemma getFromCache_stored (w w' : APIClient.World) (st : Storage)
      (key : string) (v : float) :
  w.(APIClient.setItem_ok) = true -> w'.(APIClient.getItem_ok) = true ->
  getFromCache w' (saveToCache w st key v) key =
    if (w'.(APIClient.now_read) - w.(APIClient.now_write) <? 86400000)%Z
    then (JSON_number v, saveToCache w st key v)
    else if w'.(APIClient.removeItem_ok)
         then (None, removeItem (saveToCache w st key v) key)
         else (None, saveToCache w st key v).
Proof.
  intros Hset Hget. unfold getFromCache at 1.
  rewrite Hget. cbn [negb]. unfold saveToCache at 1.
  rewrite Hset, setItem_here. cbn [value_ timestamp]. reflexivity.
Qed.

(** A number comes back from JSON equal to what it was. *)
Lemma JSON_number_equal (d v : float) :
  JSON_number d = Some v -> (v =? d) = true.
Proof.
  unfold JSON_number.
  destruct (PrimFloat.is_nan d) eqn:N; [discriminate|]. cbn [orb].
  destruct (PrimFloat.is_infinity d); [discriminate|].
  destruct (d =? 0) eqn:Z; intros [= <-].
  - rewrite eqb_sym. exact Z.
  - apply eqb_refl, N.
Qed.

Variables lat lon : float.

Local Abbreviation cacheKey :=
  ("coast_" ++ Number_toString js lat ++ "_" ++ Number_toString js lon).

(** X13.  A call of [getCoastDistance] that misses the cache returns the
    value of its scan and saves it.  When that value is a finite number,
    the next call for the same point returns it (as JSON gives it back, an
    equal number) while the item is younger than 86400000 ms, without
    looking at the reference points and leaving the storage as it is.
    When it is NaN or Infinity it is saved as [null], and the next call
    scans again; that is so with no reference point, where the scan ends
    with Infinity. *)
Theorem coast_distance_served_from_cache
        (refs refs' : list APIClient64.Coordinate)
        (w1 w2 : APIClient.World) (st : Storage) :
  fst (getFromCache w1 st cacheKey) = None ->
  w1.(APIClient.setItem_ok) = true -> w2.(APIClient.getItem_ok) = true ->
  let first := getCoastDistance js Math refs w1 st lat lon in
  fst first = APIClient64.scan Math lat lon infinity refs
  /\ match JSON_number (fst first) with
     | Some v =>
         (v =? fst first) = true
         /\ ((w2.(APIClient.now_read) - w1.(APIClient.now_write)
              < 86400000)%Z ->
             getCoastDistance js Math refs' w2 (snd first) lat lon =
               (v, snd first))
     | None =>
         fst (getCoastDistance js Math refs' w2 (snd first) lat lon) =
           APIClient64.scan Math lat lon infinity refs'
     end
  /\ (refs = [] ->
      fst first = infinity /\ JSON_number (fst first) = None).
Proof.
  intros Hmiss Hset Hget. cbv zeta.
  assert (Hfirst : getCoastDistance js Math refs w1 st lat lon =
                   (APIClient64.scan Math lat lon infinity refs,
                    saveToCache w1 (snd (getFromCache w1 st cacheKey))
                                cacheKey
                                (APIClient64.scan Math lat lon infinity
                                                  refs))).
  { unfold getCoastDistance.
    destruct (getFromCache w1 st cacheKey) as [cached st1].
    cbn [fst] in Hmiss. subst cached. reflexivity. }
  rewrite Hfirst. cbn [fst snd].
  set (st1 := snd (getFromCache w1 st cacheKey)).
  set (d := APIClient64.scan Math lat lon infinity refs).
  split; [reflexivity|]. split.
  - destruct (JSON_number d) as [v|] eqn:Hv.
    + split; [apply JSON_number_equal, Hv|].
      intros Hage. unfold getCoastDistance.
      rewrite getFromCache_stored by assumption.
      apply Z.ltb_lt in Hage. rewrite Hage, Hv. reflexivity.
    + unfold getCoastDistance.
      rewrite getFromCache_stored by assumption. rewrite Hv.
      destruct (_ <? _)%Z; [reflexivity|].
      destruct (APIClient.removeItem_ok w2); reflexivity.
  - intros ->. split; reflexivity.
Qed.

End CoastCache.

(** ** The history over successive calls *)

Section HistoryInvariant.

Import HistoryModule Binary64.

Local Open Scope float_scope.

Lemma ForallOrdPairs_filter {A : Type} (R : A -> A -> Prop)
      (f : A -> bool) (l : list A) :
  ForallOrdPairs R l -> ForallOrdPairs R (filter f l).
Proof.
  induction 1 as [|a l Ha Hl IH]; cbn [filter]; [constructor|].
  destruct (f a); [|exact IH].
  constructor; [|exact IH].
  apply Forall_forall. intros x Hx. apply filter_In in Hx.
  rewrite Forall_forall in Ha. apply Ha, Hx.
Qed.

Lemma ForallOrdPairs_firstn {A : Type} (R : A -> A -> Prop)
      (n : nat) (l : list A) :
  ForallOrdPairs R l -> ForallOrdPairs R (firstn n l).
Proof.
  intros H. revert n. induction H as [|a l Ha Hl IH]; intros n.
  - rewrite firstn_nil. constructor.
  - destruct n as [|n]; [constructor|]. rewrite firstn_cons.
    constructor; [|apply IH].
    apply Forall_forall. intros x Hx. apply firstn_In in Hx.
    rewrite Forall_forall in Ha. apply Ha, Hx.
Qed.

(** Against a number as JSON stores it, a difference has the absolute
    value it has against the number itself. *)
Lemma abs_sub_JSON (x d v : float) :
  APIClientData.JSON_number d = Some v ->
  PrimFloat.abs (x - v) = PrimFloat.abs (x - d).
Proof.
  intros Hv.
  destruct (JSON_number_cases d v Hv) as [(s & E & ->) | (s & m & e & E & ->)];
    [|reflexivity].
  apply Prim2SF_inj. rewrite !abs_spec, !sub_spec, E.
  change (Prim2SF 0) with (S754_zero false).
  unfold SF64sub, SFsub.
  destruct (Prim2SF x) as [sx|sx| |sx mx ex]; destruct s;
    try destruct sx; reflexivity.
Qed.

Lemma save_tidy (w : APIClient.World) (st : Storage)
      (locationName region icon color : string) (lat lon v_lat v_lon : float) :
  APIClientData.JSON_number lat = Some v_lat ->
  APIClientData.JSON_number lon = Some v_lon ->
  tidy st -> tidy (save w st locationName region icon color lat lon).
Proof.
  intros Hlat Hlon Hst. unfold save. cbv zeta.
  destruct (APIClient.setItem_ok w); [|exact Hst].
  change MAX_ITEMS with 5%nat. rewrite firstn_cons. cbn [tidy].
  set (kept := firstn 4 (filter (elsewhere lat lon) (load w st))).
  split.
  - cbn [List.length].
    pose proof (firstn_le_length 4 (filter (elsewhere lat lon) (load w st))).
    fold kept in H. lia.
  - constructor.
    + apply Forall_forall. intros h Hh.
      apply kept_elsewhere in Hh. destruct Hh as [_ Hh].
      unfold elsewhere, JsNum.gt in Hh. apply orb_prop in Hh.
      unfold apart. cbn [HistoryModule.lat HistoryModule.lon].
      rewrite Hlat, Hlon. cbn [toNumber].
      rewrite (abs_sub_JSON _ lat v_lat Hlat), (abs_sub_JSON _ lon v_lon Hlon).
      exact Hh.
    + apply ForallOrdPairs_firstn, ForallOrdPairs_filter.
      unfold load. destruct (APIClient.getItem_ok w); [|constructor].
      destruct st as [history|]; [exact (proj2 Hst) | constructor].
Qed.

(** Seven calls: the third is within 0.01 degree of the first and takes
    its place, and the sixth entry pushes the oldest one out. *)
Example seven_saves :
  let w := {| APIClient.now_read := 0; APIClient.now_write := 1;
              APIClient.getItem_ok := true; APIClient.removeItem_ok := true;
              APIClient.setItem_ok := true |} in
  let call name region lat lon :=
    {| call_world := w; call_locationName := name; call_region := region;
       call_icon := "#"; call_color := "#38bdf8";
       call_lat := lat; call_lon := lon |} in
  option_map (map HistoryModule.locationName)
    (saved None
       [ call "Chennai" "Neithal" 13.08 80.27;
         call "Kodaikanal" "Kurinji" 10.24 77.49;
         call "Madras" "Neithal" 13.085 80.27;
         call "Madurai" "Marudham" 9.93 78.12;
         call "Jaisalmer" "Paalai" 26.91 70.92;
         call "Mudumalai" "Mullai" 11.57 76.53;
         call "Kochi" "Neithal" 9.93 76.27 ])
  = Some ["Kochi"; "Mudumalai"; "Jaisalmer"; "Madurai"; "Madras"]%string.
Proof. reflexivity. Qed.

(** X24.  The stored history stays in order under [save]: starting from
    no history, or from any history of at most five entries no two of
    which are at the same place, after any number of calls with finite
    coordinates (whether or not the storage can be read or written) it
    holds at most five entries, and the latitudes or the longitudes of
    any two of them differ by more than 0.01 degree. *)
Theorem history_tidy (st : Storage) (calls : list SaveCall) :
  tidy st ->
  (forall c, In c calls ->
     APIClientData.JSON_number c.(call_lat) <> None
     /\ APIClientData.JSON_number c.(call_lon) <> None) ->
  tidy (saved st calls).
Proof.
  unfold saved. revert st.
  induction calls as [|c calls IH]; intros st Hst Hcalls; [exact Hst|].
  cbn [fold_left]. apply IH.
  - destruct (Hcalls c (or_introl eq_refl)) as [Hlat Hlon].
    destruct (APIClientData.JSON_number (call_lat c)) as [v_lat|] eqn:Elat;
      [|congruence].
    destruct (APIClientData.JSON_number (call_lon c)) as [v_lon|] eqn:Elon;
      [|congruence].
    exact (save_tidy _ st _ _ _ _ _ _ v_lat v_lon Elat Elon Hst).
  - intros c' Hc'. apply Hcalls. right. exact Hc'.
Qed.

End HistoryInvariant.

(** ** Worked instances *)

Lemma haversine_binary64_symmetric_witness :
  (forall x, APIClient64.Math_sin example_math (- x)
             = - APIClient64.Math_sin example_math x)%float
  /\ APIClient64.haversineDistance example_math 13.08 80.27 8.09 77.54 =
     APIClient64.haversineDistance example_math 8.09 77.54 13.08 80.27.
Proof.
  split; [intros x; reflexivity|].
  apply (haversine_binary64_symmetric example_math).
  intros x. reflexivity.
Defined.

Lemma haversine_same_point_binary64_witness :
  PrimFloat.is_finite 13.08 = true
  /\ PrimFloat.is_finite 80.27 = true
  /\ (PrimFloat.abs (rounded_math.(APIClient64.Math_cos)
                       (APIClient64.toRadians rounded_math 13.08)) <=? 1)%float = true
  /\ APIClient64.haversineDistance rounded_math 13.08 80.27 13.08 80.27 = 0%float.
Proof.
  do 3 (split; [reflexivity|]).
  exact (haversine_same_point_binary64 rounded_math eq_refl eq_refl eq_refl
           eq_refl eq_refl 13.08%float 80.27%float eq_refl eq_refl eq_refl).
Defined.

Lemma scan_binary64_witness :
  ReferencePoints.indianCoastalCities <> []
  /\ if existsb
          (fun pt =>
             PrimFloat.is_nan
               (APIClient64.haversineDistance
                  example_math 12 79 pt.(APIClient64.lat)
                  pt.(APIClient64.lon)))
          ReferencePoints.indianCoastalCities
     then APIClient64.scan example_math 12 79 infinity
                           ReferencePoints.indianCoastalCities = nan
     else (exists pt,
             In pt ReferencePoints.indianCoastalCities
             /\ APIClient64.scan example_math 12 79 infinity
                                 ReferencePoints.indianCoastalCities =
                APIClient64.haversineDistance
                  example_math 12 79 pt.(APIClient64.lat)
                  pt.(APIClient64.lon))
          /\ (forall pt,
                In pt ReferencePoints.indianCoastalCities ->
                (APIClient64.scan example_math 12 79 infinity
                                  ReferencePoints.indianCoastalCities
                 <=? APIClient64.haversineDistance
                       example_math 12 79 pt.(APIClient64.lat)
                       pt.(APIClient64.lon))%float = true).
Proof.
  split; [discriminate|].
  apply (scan_binary64 example_math 12 79
                       ReferencePoints.indianCoastalCities).
  discriminate.
Defined.

Lemma cache_hit_is_fresh_witness :
  fst (APIClient.getFromCache
         {| APIClient.now_read := 1000; APIClient.now_write := 1000;
            APIClient.getItem_ok := true; APIClient.removeItem_ok := true;
            APIClient.setItem_ok := true |}
         (fun _ _ => Some {| APIClient.value_ := Some 42%R;
                             APIClient.timestamp := 400 |})
         (12%R, 79%R)) = Some 42%R
  /\ exists item,
       Some {| APIClient.value_ := Some 42%R; APIClient.timestamp := 400 |}
       = Some item
       /\ item.(APIClient.value_) = Some 42%R
       /\ (1000 - item.(APIClient.timestamp) < 86400000)%Z.
Proof.
  split; [reflexivity|].
  destruct (cache_hit_is_fresh
              {| APIClient.now_read := 1000; APIClient.now_write := 1000;
                 APIClient.getItem_ok := true;
                 APIClient.removeItem_ok := true;
                 APIClient.setItem_ok := true |}
              (fun _ _ => Some {| APIClient.value_ := Some 42%R;
                                  APIClient.timestamp := 400 |})
              (12%R, 79%R) 42%R eq_refl)
    as (item & Hitem & Hvalue & Hage & _).
  exists item. split; [exact Hitem|]. split; [exact Hvalue | exact Hage].
Defined.

Lemma cache_round_trip_witness :
  fst (APIClient.getFromCache
         {| APIClient.now_read := 86400999; APIClient.now_write := 0;
            APIClient.getItem_ok := true; APIClient.removeItem_ok := true;
            APIClient.setItem_ok := true |}
         (APIClient.saveToCache
            {| APIClient.now_read := 0; APIClient.now_write := 1000;
               APIClient.getItem_ok := true; APIClient.removeItem_ok := true;
               APIClient.setItem_ok := true |}
            APIClient.emptyStorage (12%R, 79%R) (APIClient.Finite 42%R))
         (12%R, 79%R)) = Some 42%R.
Proof.
  exact (proj1 (cache_round_trip
                  {| APIClient.now_read := 0; APIClient.now_write := 1000;
                     APIClient.getItem_ok := true;
                     APIClient.removeItem_ok := true;
                     APIClient.setItem_ok := true |}
                  {| APIClient.now_read := 86400999;
                     APIClient.now_write := 0;
                     APIClient.getItem_ok := true;
                     APIClient.removeItem_ok := true;
                     APIClient.setItem_ok := true |}
                  APIClient.emptyStorage (12%R, 79%R)
                  (APIClient.Finite 42%R) eq_refl eq_refl)).
Defined.

Lemma fetchWithRetry_first_success_witness :
  (1 < 3)%nat
  /\ snd (Requests.fetchWithRetry
            nat (fun i => if (i <? 1)%nat
                          then Requests.Fails (Requests.HttpError 503)
                          else Requests.Body 7%nat) 3)
     = Requests.Return 7%nat
  /\ Requests.sleeps
       (fst (Requests.fetchWithRetry
               nat (fun i => if (i <? 1)%nat
                             then Requests.Fails (Requests.HttpError 503)
                             else Requests.Body 7%nat) 3))
     = [1000%Z].
Proof.
  split; [lia|].
  destruct (fetchWithRetry_first_success
              nat (fun i => if (i <? 1)%nat
                            then Requests.Fails (Requests.HttpError 503)
                            else Requests.Body 7%nat) 3 1 7%nat)
    as (Hreturn & _ & Hsleeps).
  - lia.
  - intros i Hi. exists (Requests.HttpError 503).
    destruct i; [reflexivity | lia].
  - reflexivity.
  - split; [exact Hreturn | exact Hsleeps].
Defined.

Lemma fetchWithRetry_gives_up_witness :
  (0 < 3)%nat
  /\ Requests.requests
       (fst (Requests.fetchWithRetry
               nat (fun _ => Requests.Fails (Requests.HttpError 503)) 3))
     = [0; 1; 2]%nat
  /\ Requests.sleeps
       (fst (Requests.fetchWithRetry
               nat (fun _ => Requests.Fails (Requests.HttpError 503)) 3))
     = [1000; 2000]%Z.
Proof.
  split; [lia|].
  destruct (fetchWithRetry_gives_up
              nat (fun _ => Requests.Fails (Requests.HttpError 503)) 3)
    as (_ & Hrequests & Hsleeps & _).
  - lia.
  - intros i _. exists (Requests.HttpError 503). reflexivity.
  - split; [exact Hrequests | exact Hsleeps].
Defined.

Lemma precipitation_unavailable_witness :
  fst (fst (APIClientData.getAnnualPrecipitation
              example_runtime
              {| APIClient.now_read := 0; APIClient.now_write := 5;
                 APIClient.getItem_ok := true;
                 APIClient.removeItem_ok := true;
                 APIClient.setItem_ok := true |}
              (fun _ => Requests.Fails (Requests.Rejection "Failed to fetch"))
              APIClientData.emptyStorage 12 79)) = 500%float.
Proof.
  apply (precipitation_unavailable
           example_runtime
           {| APIClient.now_read := 0; APIClient.now_write := 5;
              APIClient.getItem_ok := true; APIClient.removeItem_ok := true;
              APIClient.setItem_ok := true |}
           (fun _ => Requests.Fails (Requests.Rejection "Failed to fetch"))
           APIClientData.emptyStorage 12 79).
  - reflexivity.
  - intros i _. exists (Requests.Rejection "Failed to fetch"). reflexivity.
Defined.

Lemma precipitation_missing_days_witness :
  fst (fst (APIClientData.getAnnualPrecipitation
              example_runtime
              {| APIClient.now_read := 0; APIClient.now_write := 5;
                 APIClient.getItem_ok := true;
                 APIClient.removeItem_ok := true;
                 APIClient.setItem_ok := true |}
              (fun _ => Requests.Body (Some [None; None; None]))
              APIClientData.emptyStorage 12 79)) = 0%float.
Proof.
  apply (precipitation_missing_days
           example_runtime
           {| APIClient.now_read := 0; APIClient.now_write := 5;
              APIClient.getItem_ok := true; APIClient.removeItem_ok := true;
              APIClient.setItem_ok := true |}
           (fun _ => Requests.Body (Some [None; None; None]))
           APIClientData.emptyStorage 12 79 [None; None; None]).
  - reflexivity.
  - reflexivity.
  - intros v [<- | [<- | [<- | []]]]; reflexivity.
Defined.

Lemma reference_points_witness :
  (73 <= 100)%nat
  /\ exists pts,
       ReferencePoints.getCoastalReferencePoints example_math 100 = Some pts
       /\ List.length pts = 940%nat
       /\ firstn 13 pts = ReferencePoints.indianCoastalCities
       /\ forallb (fun pt => JsNum.ge pt.(APIClient64.lon) (-180)
                             && JsNum.le pt.(APIClient64.lon) 180) pts
          = true.
Proof.
  split; [lia|].
  apply (reference_points example_math 100). lia.
Defined.

Lemma rate_limit_spacing_witness :
  spaced 0
    (Geocoding.requestTimes
       0 [ {| Geocoding.now := 5000;
              Geocoding.later :=
                fun waited => match waited with
                              | Some ms => (5000 + ms)%Z
                              | None => 5002%Z
                              end |};
           {| Geocoding.now := 5300;
              Geocoding.later :=
                fun waited => match waited with
                              | Some ms => (5300 + ms + 4)%Z
                              | None => 5300%Z
                              end |} ]).
Proof.
  apply (rate_limit_spacing 0).
  repeat constructor; cbn; intros; lia.
Defined.

Lemma history_replaces_witness :
  HistoryModule.save
    {| APIClient.now_read := 0; APIClient.now_write := 9;
       APIClient.getItem_ok := true; APIClient.removeItem_ok := true;
       APIClient.setItem_ok := true |}
    (HistoryModule.save
       {| APIClient.now_read := 0; APIClient.now_write := 5;
          APIClient.getItem_ok := true; APIClient.removeItem_ok := true;
          APIClient.setItem_ok := true |}
       None "Chennai" "Neithal" "#" "#38bdf8" 13.08 80.27)
    "Madras" "Neithal" "#" "#38bdf8" 13.08 80.27 =
  Some [ {| HistoryModule.locationName := "Madras";
            HistoryModule.region := "Neithal";
            HistoryModule.icon := "#";
            HistoryModule.color := "#38bdf8";
            HistoryModule.lat := Some 13.08%float;
            HistoryModule.lon := Some 80.27%float;
            HistoryModule.ts := 9 |} ].
Proof.
  apply (history_replaces
           {| APIClient.now_read := 0; APIClient.now_write := 5;
              APIClient.getItem_ok := true; APIClient.removeItem_ok := true;
              APIClient.setItem_ok := true |}
           None "Chennai" "Neithal" "#" "#38bdf8" 13.08 80.27
           {| APIClient.now_read := 0; APIClient.now_write := 9;
              APIClient.getItem_ok := true; APIClient.removeItem_ok := true;
              APIClient.setItem_ok := true |}
           "Madras" "Neithal" "#" "#38bdf8" 13.08 80.27);
    reflexivity.
Defined.

Lemma nan_distance_never_coastal_witness :
  PrimFloat.is_nan
    (APIClient64.scan
       {| APIClient64.Math_PI := 3.141592653589793;
          APIClient64.Math_sin := fun x => x;
          APIClient64.Math_cos := fun _ => 1;
          APIClient64.Math_atan2 := fun y x => y / x;
          APIClient64.Math_sqrt := fun _ => nan |}
       13 80 infinity ReferencePoints.indianCoastalCities) = true
  /\ Console.result
       (TerrainAnalyzer.applyClassificationRules
          example_runtime 7
          (APIClient64.scan
             {| APIClient64.Math_PI := 3.141592653589793;
                APIClient64.Math_sin := fun x => x;
                APIClient64.Math_cos := fun _ => 1;
                APIClient64.Math_atan2 := fun y x => y / x;
                APIClient64.Math_sqrt := fun _ => nan |}
             13 80 infinity ReferencePoints.indianCoastalCities)
          1400)
     <> "Neithal".
Proof.
  destruct (nan_distance_never_coastal
              example_runtime
              {| APIClient64.Math_PI := 3.141592653589793;
                 APIClient64.Math_sin := fun x => x;
                 APIClient64.Math_cos := fun _ => 1;
                 APIClient64.Math_atan2 := fun y x => y / x;
                 APIClient64.Math_sqrt := fun _ => nan |}
              13 80 ReferencePoints.indianCoastalCities 7 1400)
    as (Hnan & _ & Hresult).
  - exists (ReferencePoints.point 13.08 80.27).
    split; [left; reflexivity | reflexivity].
  - split; [exact Hnan | exact Hresult].
Defined.

Lemma haversine_nan_at_antipode_witness :
  PrimFloat.is_nan
    (APIClient64.haversineDistance rounded_math (-8) (-112) 8 68) = true
  /\ PrimFloat.is_nan
       (APIClient64.haversineDistance rounded_math 8 68 (-8) (-112)) = true.
Proof.
  destruct (haversine_nan_at_antipode rounded_math) as (Hthere & Hback & _);
    try reflexivity.
  - intros x Hx. cbn. rewrite Hx. reflexivity.
  - intros y x Hx. cbn. rewrite Hx. reflexivity.
  - split; [exact Hthere | exact Hback].
Defined.

Lemma coast_distance_nan_at_antipode_witness :
  exists pts,
    ReferencePoints.getCoastalReferencePoints rounded_math 73 = Some pts
    /\ PrimFloat.is_nan
         (fst (APIClientData.getCoastDistance
                 example_runtime rounded_math pts
                 {| APIClient.now_read := 0; APIClient.now_write := 5;
                    APIClient.getItem_ok := true;
                    APIClient.removeItem_ok := true;
                    APIClient.setItem_ok := true |}
                 APIClientData.emptyStorage (-8) (-112))) = true.
Proof.
  assert (Hsqrt : forall x, (x <? 0)%float = true ->
            PrimFloat.is_nan (APIClient64.Math_sqrt rounded_math x) = true)
    by (intros x Hx; cbn; rewrite Hx; reflexivity).
  assert (Hatan2 : forall y x, PrimFloat.is_nan x = true ->
            PrimFloat.is_nan (APIClient64.Math_atan2 rounded_math y x)
            = true)
    by (intros y x Hx; cbn; rewrite Hx; reflexivity).
  destruct (coast_distance_nan_at_antipode
              example_runtime rounded_math
              eq_refl eq_refl eq_refl eq_refl eq_refl Hsqrt Hatan2
              73
              {| APIClient.now_read := 0; APIClient.now_write := 5;
                 APIClient.getItem_ok := true;
                 APIClient.removeItem_ok := true;
                 APIClient.setItem_ok := true |}
              APIClientData.emptyStorage (le_n 73) eq_refl)
    as (pts & Hpts & _ & Hnan & _).
  exists pts. split; [exact Hpts | exact Hnan].
Defined.

Lemma coast_distance_served_from_cache_witness :
  APIClientData.getCoastDistance
    example_runtime example_math []
    {| APIClient.now_read := 9000; APIClient.now_write := 9000;
       APIClient.getItem_ok := true; APIClient.removeItem_ok := true;
       APIClient.setItem_ok := true |}
    (snd (APIClientData.getCoastDistance
            example_runtime example_math
            [ ReferencePoints.point 13.08 80.27 ]
            {| APIClient.now_read := 0; APIClient.now_write := 5;
               APIClient.getItem_ok := true; APIClient.removeItem_ok := true;
               APIClient.setItem_ok := true |}
            APIClientData.emptyStorage 12 79))
    12 79 =
  APIClientData.getCoastDistance
    example_runtime example_math
    [ ReferencePoints.point 13.08 80.27 ]
    {| APIClient.now_read := 0; APIClient.now_write := 5;
       APIClient.getItem_ok := true; APIClient.removeItem_ok := true;
       APIClient.setItem_ok := true |}
    APIClientData.emptyStorage 12 79.
Proof.
  apply (proj1 (proj2 (coast_distance_served_from_cache
                  example_runtime example_math 12 79
                  [ ReferencePoints.point 13.08 80.27 ] []
                  {| APIClient.now_read := 0; APIClient.now_write := 5;
                     APIClient.getItem_ok := true;
                     APIClient.removeItem_ok := true;
                     APIClient.setItem_ok := true |}
                  {| APIClient.now_read := 9000; APIClient.now_write := 9000;
                     APIClient.getItem_ok := true;
                     APIClient.removeItem_ok := true;
                     APIClient.setItem_ok := true |}
                  APIClientData.emptyStorage
                  eq_refl eq_refl eq_refl))).
  reflexivity.
Defined.

Lemma history_tidy_witness :
  let w := {| APIClient.now_read := 0; APIClient.now_write := 1;
              APIClient.getItem_ok := true; APIClient.removeItem_ok := true;
              APIClient.setItem_ok := true |} in
  let call name region lat lon :=
    {| call_world := w; call_locationName := name; call_region := region;
       call_icon := "#"; call_color := "#38bdf8";
       call_lat := lat; call_lon := lon |} in
  tidy
    (saved None
       [ call "Chennai" "Neithal" 13.08 80.27;
         call "Kodaikanal" "Kurinji" 10.24 77.49;
         call "Madras" "Neithal" 13.085 80.27;
         call "Madurai" "Marudham" 9.93 78.12;
         call "Jaisalmer" "Paalai" 26.91 70.92;
         call "Mudumalai" "Mullai" 11.57 76.53;
         call "Kochi" "Neithal" 9.93 76.27 ]).
Proof.
  cbv zeta. apply (history_tidy None); [exact I|].
  intros c [<- | [<- | [<- | [<- | [<- | [<- | [<- | []]]]]]]];
    split; discriminate.
Defined.
